(** * server.js: login, token guard and the two entity routes

    A shallow embedding of [src/server.js].  The file is an Express
    application with three routes:

    - [POST /login] looks the e-mail up in the fixed [users] array, checks
      the password with bcrypt and answers with a token signed by
      [jsonwebtoken];
    - [authenticateJWT permissionsRequired] is the middleware factory that
      guards [GET /entities] (permission READ) and [POST /entities]
      (permission WRITE).

    The third-party packages are not part of the repository.  [jsonwebtoken]
    and [bcryptjs] are taken as interfaces ([Jwt.Lib], [Bcrypt.Lib]) together
    with the laws of their documented behaviour ([Jwt.Laws], [Bcrypt.Laws]);
    module [Ref] gives a small executable implementation of both interfaces
    that satisfies the laws, so that every statement can be run on concrete
    requests.  The few Express and JavaScript primitives the handlers call
    ([res.sendStatus], [String.prototype.split], [Array.prototype.slice],
    truthiness) are written out in modules [Js] and [Express].

    What a request brings is not typed by the server: the fields of a
    parsed body and the payload of a verified token are arbitrary JSON
    ([Js.json]).  Where a call on such a value throws, the exception
    reaches Express's default error handler, which answers 500
    ([Express.uncaught]). *)

From Stdlib Require Import String Ascii List ZArith Lia Bool.
From Stdlib Require Import Decimal DecimalString DecimalNat.
From Stdlib Require Import QArith_base.
Import ListNotations.
Local Close Scope Q_scope.
Local Open Scope string_scope.
Local Open Scope Z_scope.

(* ------------------------------------------------------------------ *)
(** ** JavaScript primitives used by the handlers *)

Module Js.

(** A value that is either a string or [undefined]: a header, a field of a
    parsed JSON body, a query parameter, an array element read by index. *)
Definition value := option string.

(** [if (v)]: [undefined] and the empty string are falsy. *)
Definition truthy (v : value) : bool :=
  match v with
  | Some (String _ _) => true
  | _ => false
  end.

(** The string held by a value known to be truthy. *)
Definition str (v : value) : string :=
  match v with
  | Some s => s
  | None => EmptyString
  end.

(** [v || d]. *)
Definition or_else (v : value) (d : string) : string :=
  if truthy v then str v else d.

(** [s.split(sep)] for a separator of one character: the list of the
    segments between occurrences of [sep]; never empty. *)
Fixpoint split (sep : ascii) (s : string) : list string :=
  match s with
  | EmptyString => [EmptyString]
  | String c r =>
      if Ascii.eqb c sep then EmptyString :: split sep r
      else match split sep r with
           | seg :: segs => String c seg :: segs
           | [] => [String c EmptyString]
           end
  end.

(** [s.includes(c)] for a single character [c]. *)
Fixpoint string_includes (s : string) (c : ascii) : bool :=
  match s with
  | EmptyString => false
  | String a r => Ascii.eqb a c || string_includes r c
  end.

(** [arr[i]]: [undefined] out of range. *)
Definition index (arr : list string) (i : nat) : value := nth_error arr i.

(** [arr.includes(x)] on an array of strings. *)
Definition includes (arr : list string) (x : string) : bool :=
  existsb (fun y => String.eqb y x) arr.

(** [arr.every(p)]. *)
Definition every {A : Type} (p : A -> bool) (arr : list A) : bool :=
  forallb p arr.

(** [arr.find(p)]: the first element satisfying [p], or [undefined]. *)
Definition find {A : Type} (p : A -> bool) (arr : list A) : option A :=
  List.find p arr.

(** [Array.from({ length: n }, (_, i) => f i)]. *)
Definition Array_from {A : Type} (n : nat) (f : nat -> A) : list A :=
  map f (seq 0 n).

(** Start and end arguments of [slice] relative to a length: negative
    indices count from the end, everything is clamped to [0 .. len]. *)
Definition relative (len i : Z) : Z :=
  if i <? 0 then Z.max (len + i) 0 else Z.min i len.

(** [arr.slice(start, end)]. *)
Definition slice {A : Type} (arr : list A) (start stop : Z) : list A :=
  let len := Z.of_nat (length arr) in
  let k := relative len start in
  let final := relative len stop in
  firstn (Z.to_nat (final - k)) (skipn (Z.to_nat k) arr).

Definition digit (c : ascii) : option Z :=
  let n := Z.of_nat (nat_of_ascii c) in
  if (48 <=? n) && (n <=? 57) then Some (n - 48) else None.

Fixpoint digits (acc : Z) (s : string) : option Z :=
  match s with
  | EmptyString => Some acc
  | String c r =>
      match digit c with
      | Some d => digits (10 * acc + d) r
      | None => None
      end
  end.

(** [Number(s)] on the strings of decimal digits (the empty string is 0).
    Every other string (signs, blanks, fractions, exponents, hexadecimal,
    text giving NaN) is outside the fragment modelled here and yields
    [None].  The integer is exact; a double rounds above 2^53, far beyond
    the length at which [slice] clamps. *)
Definition Number (s : string) : option Z := digits 0 s.

(** [String(n)] and the template literal [`${n}`] for a natural number. *)
Definition toString (n : nat) : string :=
  NilZero.string_of_uint (Nat.to_uint n).

(** A JSON value as [JSON.parse] builds it: a field of a request body, the
    payload of a token.  A number is the rational value of the double; the
    properties of an object are listed in the order of the text. *)
#[warnings="-register-all"] Inductive json :=
| Null
| Bool (b : bool)
| Num (n : Q)
| Str (s : string)
| Arr (elems : list json)
| Obj (props : list (string * json)).

(** A JSON value or [undefined]. *)
Definition any := option json.

(** [if (v)] on any value: [undefined], [null], [false], [0] and the empty
    string are falsy, every array and object is truthy. *)
Definition truthy_any (v : any) : bool :=
  match v with
  | None => false
  | Some Null => false
  | Some (Bool b) => b
  | Some (Num n) => negb (Qnum n =? 0)
  | Some (Str s) => truthy (Some s)
  | Some (Arr _) => true
  | Some (Obj _) => true
  end.

(** [a === v] for a string [a] and any [v]: only an equal string. *)
Definition strict_eq_any (a : string) (v : any) : bool :=
  match v with
  | Some (Str s) => String.eqb a s
  | _ => false
  end.

(** The value of a key among the properties of a parsed object; of
    duplicate keys [JSON.parse] keeps the last. *)
Fixpoint lookup (key : string) (props : list (string * json)) : any :=
  match props with
  | [] => None
  | (k, v) :: rest =>
      match lookup key rest with
      | Some later => Some later
      | None => if String.eqb k key then Some v else None
      end
  end.

(** [v.key] for a data property [key] (not a built-in such as [length]):
    the property of an object, [undefined] on any other value. *)
Definition get (v : json) (key : string) : any :=
  match v with
  | Obj props => lookup key props
  | _ => None
  end.

(** [s.includes(sub)] on strings: [sub] occurs in [s]. *)
Fixpoint includes_substring (s sub : string) : bool :=
  String.prefix sub s ||
  match s with
  | EmptyString => false
  | String _ r => includes_substring r sub
  end.

(** [x.includes(p)] for any [x] and a string [p].  On an array it looks for
    an element that is the string [p]; on a string it is the substring
    test; on every other value, [undefined] included, the call throws a
    TypeError: [None]. *)
Definition includes_any (x : any) (p : string) : option bool :=
  match x with
  | Some (Arr elems) => Some (existsb (fun e => strict_eq_any p (Some e)) elems)
  | Some (Str s) => Some (includes_substring s p)
  | _ => None
  end.

(** [arr.every(f)] for a callback that may throw ([None]): the elements
    are tried in order, up to the first that gives [false] or throws. *)
Fixpoint every_throws {A : Type} (f : A -> option bool) (arr : list A)
    : option bool :=
  match arr with
  | [] => Some true
  | x :: rest =>
      match f x with
      | None => None
      | Some false => Some false
      | Some true => every_throws f rest
      end
  end.

End Js.

(* ------------------------------------------------------------------ *)
(** ** Express responses *)

Module Express.

Record Entity := { id : Z; name : string }.

(** What a response carries: nothing, a text, or one of the JSON objects the
    handlers of this file build. *)
Inductive Body :=
| NoBody                             (* res.end() *)
| Text (t : string)                  (* res.send(text) *)
| JsonMessage (message : string)     (* res.json({ message }) *)
| JsonToken (token : string)         (* res.json({ token }) *)
| JsonEntity (id : Z) (name : Js.any) (* res.json({ id, name }) *)
| JsonEntities (es : list Entity)    (* res.json([...]) *)
| ErrorPage.                         (* the page of the default error handler *)

Record Response := { statusCode : Z; body : Body }.

(** [res.status(code).json(b)]. *)
Definition status_json (code : Z) (b : Body) : Response :=
  {| statusCode := code; body := b |}.

(** The registered status messages: an excerpt of the table of the
    [statuses] package.  The server only asks for 401 and 403. *)
Definition statuses_message (code : Z) : option string :=
  if code =? 200 then Some "OK"
  else if code =? 201 then Some "Created"
  else if code =? 400 then Some "Bad Request"
  else if code =? 401 then Some "Unauthorized"
  else if code =? 403 then Some "Forbidden"
  else if code =? 404 then Some "Not Found"
  else if code =? 500 then Some "Internal Server Error"
  else None.

(** [res.sendStatus(code)]: Express sets the status code and sends the
    registered status message as the text body
    ([statuses.message[code] || String(code)]). *)
Definition sendStatus (code : Z) : Response :=
  {| statusCode := code;
     body := Text (match statuses_message code with
                   | Some m => m
                   | None => NilZero.string_of_int (Z.to_int code)
                   end) |}.

(** What the client receives when a middleware or a handler throws: no
    error handler is installed, so Express's default one answers 500. *)
Definition uncaught : Response :=
  {| statusCode := 500; body := ErrorPage |}.

End Express.

(* ------------------------------------------------------------------ *)
(** ** The [jsonwebtoken] interface *)

Module Jwt.

(** The object that [/login] signs: the email, the role and the
    permissions of an element of the [users] array, which are strings and
    an array of strings written in the program. *)
Record Payload := {
  email : string;
  role : string;
  permissions : list string
}.

(** What [verify] hands to its callback for a token made by [sign]: the
    signed fields followed by the timestamps [sign] added (seconds since the
    epoch). *)
Definition decoded (p : Payload) (iat exp : Z) : Js.json :=
  Js.Obj
    [ ("email", Js.Str (email p));
      ("role", Js.Str (role p));
      ("permissions", Js.Arr (map Js.Str (permissions p)));
      ("iat", Js.Num (inject_Z iat));
      ("exp", Js.Num (inject_Z exp)) ].

Inductive VerifyError :=
| MustBeProvided      (* JsonWebTokenError: jwt must be provided *)
| Malformed           (* JsonWebTokenError: jwt malformed / invalid token *)
| InvalidSignature    (* JsonWebTokenError: invalid signature *)
| TokenExpired.       (* TokenExpiredError: jwt expired *)

(** The arguments of the callback of [verify].  The decoded payload is
    whatever JSON was signed under the secret, by this server or by anyone
    else who holds the secret. *)
Inductive Verified :=
| Err (err : VerifyError)
| Ok (user : Js.json).

(** [Math.floor(Date.now() / 1000)]. *)
Definition clockTimestamp (now : Z) : Z := now / 1000.

(** The two functions of the package the server calls.  Both read the
    clock; here it is the argument [now], in milliseconds as [Date.now()]
    gives it.
    - [sign payload secret expiresIn now], [expiresIn] in seconds;
    - [verify token secret now], where [token] may be [undefined]. *)
Record Lib := {
  sign : Payload -> string -> Z -> Z -> string;
  verify : Js.value -> string -> Z -> Verified
}.

(** The span ['1m'] of [{ expiresIn: '1m' }], in seconds. *)
Definition expiresIn_1m : Z := 60.

(** Documented behaviour of the package. *)
Record Laws (L : Lib) : Prop := {
  (** no token: "jwt must be provided" *)
  verify_undefined : forall secret now,
    verify L None secret now = Err MustBeProvided;
  (** a token verifies under the secret that signed it until the clock
      reaches [exp], and decodes to the payload as signed ([sign] refuses
      an empty secret) *)
  verify_sign : forall p secret d t now,
    secret <> EmptyString ->
    clockTimestamp now < clockTimestamp t + d ->
    verify L (Some (sign L p secret d t)) secret now =
      Ok (decoded p (clockTimestamp t) (clockTimestamp t + d));
  (** a token is base64url text and dots: it has no blank *)
  sign_no_blank : forall p secret d t,
    Js.string_includes (sign L p secret d t) " " = false;
  (** from [exp] on it is expired, whatever the signature *)
  verify_expired : forall p secret d t now,
    secret <> EmptyString ->
    clockTimestamp t + d <= clockTimestamp now ->
    verify L (Some (sign L p secret d t)) secret now = Err TokenExpired
}.

End Jwt.

(* ------------------------------------------------------------------ *)
(** ** The [bcryptjs] interface *)

Module Bcrypt.

(** [hashSync plaintext rounds] draws a random salt; the salt is an
    explicit argument here.  [compareSync candidate hash]. *)
Record Lib := {
  hashSync : string -> Z -> string -> string;
  compareSync : string -> string -> bool
}.

Record Laws (L : Lib) : Prop := {
  compare_hash : forall plaintext rounds salt,
    compareSync L plaintext (hashSync L plaintext rounds salt) = true
}.

(** [bcrypt.compareSync(s, hash)] for any [s]: the package throws
    "Illegal arguments" unless [s] is a string ([None]). *)
Definition compareSync_any (L : Lib) (s : Js.any) (hash : string) : option bool :=
  match s with
  | Some (Js.Str candidate) => Some (compareSync L candidate hash)
  | _ => None
  end.

End Bcrypt.

(* ------------------------------------------------------------------ *)
(** ** The server *)

Module User.

(** An element of the [users] array. *)
Record t := {
  email : string;
  password : string;       (* the bcrypt hash *)
  role : string;
  permissions : list string
}.

End User.

Module Req.

(** The two fields [POST /login] reads of [req.body] after
    [bodyParser.json()]: any JSON, or [undefined]. *)
Record LoginBody := { email : Js.any; password : Js.any }.

(** A request to [/entities]: [req.headers.authorization], the two query
    parameters of the GET route, each given once and so a string, or not
    given, and [req.body.name] of the POST route, any JSON or
    [undefined]. *)
Record Entities := {
  authorization : Js.value;
  skip : Js.value;
  limit : Js.value;
  name : Js.any
}.

End Req.

Module Server.

Import Express.

(** What a middleware does with a request: it answers itself, it calls
    [next()] after setting [req.user], or it throws. *)
Inductive Outcome :=
| Respond (res : Response)
| Next (user : Js.json)
| Throw.

Section App.

Variable jwt : Jwt.Lib.
Variable bcrypt : Bcrypt.Lib.
(** [process.env.SECRET_KEY] when the module is loaded. *)
Variable env_SECRET_KEY : Js.value.
(** The salts the two [hashSync] calls draw when the module is loaded. *)
Variables salt0 salt1 : string.

(** [const SECRET_KEY = process.env.SECRET_KEY || 'playboy'] *)
Definition SECRET_KEY : string := Js.or_else env_SECRET_KEY "playboy".

Definition users : list User.t :=
  [ {| User.email := "andrei@gmail.com";
       User.password := Bcrypt.hashSync bcrypt "12345" 5 salt0;
       User.role := "ADMIN";
       User.permissions := ["WRITE"; "READ"] |};
    {| User.email := "vasea@gmail.com";
       User.password := Bcrypt.hashSync bcrypt "12345" 5 salt1;
       User.role := "READER";
       User.permissions := ["READ"] |} ].

(** [app.post('/login', ...)] *)
Definition post_login (body : Req.LoginBody) (now : Z) : Response :=
  let email := Req.email body in
  let password := Req.password body in
  if Js.truthy_any email && Js.truthy_any password then
    match Js.find (fun u => Js.strict_eq_any (User.email u) email) users with
    | Some user =>
        match Bcrypt.compareSync_any bcrypt password (User.password user) with
        | Some true =>
            let token :=
              Jwt.sign jwt
                {| Jwt.email := User.email user;
                   Jwt.role := User.role user;
                   Jwt.permissions := User.permissions user |}
                SECRET_KEY Jwt.expiresIn_1m now in
            status_json 200 (JsonToken token)
        | Some false => status_json 401 (JsonMessage "Invalid email or password")
        | None => uncaught
        end
    | None => status_json 401 (JsonMessage "Invalid email or password")
    end
  else status_json 400 (JsonMessage "Email and password are required").

(** [authenticateJWT(permissionsRequired)(req, res, next)] *)
Definition authenticateJWT (permissionsRequired : list string)
    (authorization : Js.value) (now : Z) : Outcome :=
  let authHeader := authorization in
  if Js.truthy authHeader then
    let token := Js.index (Js.split " " (Js.str authHeader)) 1 in
    match Jwt.verify jwt token SECRET_KEY now with
    | Jwt.Err _ => Respond (sendStatus 403)
    | Jwt.Ok user =>
        match Js.every_throws
                (fun permission =>
                   Js.includes_any (Js.get user "permissions") permission)
                permissionsRequired
        with
        | Some true => Next user
        | Some false => Respond (sendStatus 403)
        | None => Throw
        end
    end
  else Respond (sendStatus 401).

(** The array the GET handler builds on every call. *)
Definition entities : list Entity :=
  Js.Array_from 100
    (fun i => {| id := Z.of_nat i; name := "Entity " ++ Js.toString i |}).

(** The handler of [app.get('/entities', ...)]; [None] when a query
    parameter is outside the fragment of [Js.Number]. *)
Definition get_entities_handler (req : Req.Entities) : option Response :=
  let number (v : Js.value) (default : Z) :=
    match v with
    | None => Some default
    | Some s => Js.Number s
    end in
  match number (Req.skip req) 0, number (Req.limit req) 10 with
  | Some skip, Some limit =>
      let result := Js.slice entities skip (skip + limit) in
      Some (status_json 200 (JsonEntities result))
  | _, _ => None
  end.

(** [app.get('/entities', authenticateJWT(['READ']), handler)] *)
Definition get_entities (req : Req.Entities) (now : Z) : option Response :=
  match authenticateJWT ["READ"] (Req.authorization req) now with
  | Respond res => Some res
  | Next _ => get_entities_handler req
  | Throw => Some uncaught
  end.

(** The handler of [app.post('/entities', ...)]. *)
Definition post_entities_handler (req : Req.Entities) (now : Z) : Response :=
  let name := Req.name req in
  if Js.truthy_any name
  then status_json 201 (JsonEntity now name)
  else status_json 400 (JsonMessage "Invalid input").

(** [app.post('/entities', authenticateJWT(['WRITE']), handler)] *)
Definition post_entities (req : Req.Entities) (now : Z) : Response :=
  match authenticateJWT ["WRITE"] (Req.authorization req) now with
  | Respond res => res
  | Next _ => post_entities_handler req now
  | Throw => uncaught
  end.

End App.

End Server.

(* ------------------------------------------------------------------ *)
(** ** Reference implementations of the two interfaces

    A token is the serialised payload and timestamps followed by a dot and
    a keyed checksum of that text.  The alphabet has no blank, as that of a
    real token.  Nothing here is cryptography: the module exists to run the
    server on concrete requests and to show that the laws can be met. *)

Module Ref.

Definition bit (b : bool) : ascii := if b then "1"%char else "0"%char.
Definition is_one (c : ascii) : bool := Ascii.eqb c "1"%char.

(** Writers take the text that follows as their last argument. *)
Definition enc_ascii (c : ascii) (tail : string) : string :=
  match c with
  | Ascii b0 b1 b2 b3 b4 b5 b6 b7 =>
      String (bit b0) (String (bit b1) (String (bit b2) (String (bit b3)
      (String (bit b4) (String (bit b5) (String (bit b6) (String (bit b7)
      tail)))))))
  end.

Fixpoint enc_string (s : string) (tail : string) : string :=
  match s with
  | EmptyString => String "e" tail
  | String c r => String "c" (enc_ascii c (enc_string r tail))
  end.

Fixpoint dec_string (s : string) : option (string * string) :=
  match s with
  | String "e" r => Some (EmptyString, r)
  | String "c" (String c0 (String c1 (String c2 (String c3
      (String c4 (String c5 (String c6 (String c7 r)))))))) =>
      match dec_string r with
      | Some (w, r') =>
          Some (String (Ascii (is_one c0) (is_one c1) (is_one c2) (is_one c3)
                              (is_one c4) (is_one c5) (is_one c6) (is_one c7))
                       w, r')
      | None => None
      end
  | _ => None
  end.

Fixpoint enc_list (l : list string) (tail : string) : string :=
  match l with
  | [] => String "]" tail
  | w :: l' => enc_string w (enc_list l' tail)
  end.

(** One pass over the text: a character extends the word being read, [e]
    closes it, a closing bracket ends the list. *)
Fixpoint dec_list (s : string) : option (list string * string) :=
  match s with
  | String "]" r => Some ([], r)
  | String "e" r =>
      match dec_list r with
      | Some (l, r') => Some (EmptyString :: l, r')
      | None => None
      end
  | String "c" (String c0 (String c1 (String c2 (String c3
      (String c4 (String c5 (String c6 (String c7 r)))))))) =>
      match dec_list r with
      | Some (w :: l, r') =>
          Some (String (Ascii (is_one c0) (is_one c1) (is_one c2) (is_one c3)
                              (is_one c4) (is_one c5) (is_one c6) (is_one c7))
                       w :: l, r')
      | _ => None
      end
  | _ => None
  end.

Fixpoint enc_pos (p : positive) (tail : string) : string :=
  match p with
  | xH => String ";" tail
  | xO q => String "0" (enc_pos q tail)
  | xI q => String "1" (enc_pos q tail)
  end.

Fixpoint dec_pos (s : string) : option (positive * string) :=
  match s with
  | String ";" r => Some (xH, r)
  | String "0" r =>
      match dec_pos r with
      | Some (q, r') => Some (xO q, r')
      | None => None
      end
  | String "1" r =>
      match dec_pos r with
      | Some (q, r') => Some (xI q, r')
      | None => None
      end
  | _ => None
  end.

Definition enc_Z (z : Z) (tail : string) : string :=
  match z with
  | Z0 => String "z" tail
  | Zpos p => String "p" (enc_pos p tail)
  | Zneg p => String "n" (enc_pos p tail)
  end.

Definition dec_Z (s : string) : option (Z * string) :=
  match s with
  | String "z" r => Some (Z0, r)
  | String "p" r =>
      match dec_pos r with
      | Some (p, r') => Some (Zpos p, r')
      | None => None
      end
  | String "n" r =>
      match dec_pos r with
      | Some (p, r') => Some (Zneg p, r')
      | None => None
      end
  | _ => None
  end.

(** What a token of this implementation holds.  The permissions claim may
    be missing, a text or a list of texts: [sign] always writes a list, the
    other two are what somebody else who holds the secret may have
    signed. *)
Inductive PermissionsClaim :=
| NoClaim
| TextClaim (s : string)
| ListClaim (l : list string).

Record Content := {
  email : string;
  role : string;
  permissions : PermissionsClaim;
  iat : Z;
  exp : Z
}.

(** The payload [verify] decodes a token to. *)
Definition to_json (c : Content) : Js.json :=
  Js.Obj
    (("email", Js.Str (email c)) ::
     ("role", Js.Str (role c)) ::
     match permissions c with
     | NoClaim => []
     | TextClaim s => [("permissions", Js.Str s)]
     | ListClaim l => [("permissions", Js.Arr (map Js.Str l))]
     end ++
     [ ("iat", Js.Num (inject_Z (iat c)));
       ("exp", Js.Num (inject_Z (exp c))) ]).

Definition enc_permissions (p : PermissionsClaim) (tail : string) : string :=
  match p with
  | NoClaim => String "m" tail
  | TextClaim s => String "t" (enc_string s tail)
  | ListClaim l => String "l" (enc_list l tail)
  end.

Definition dec_permissions (s : string) : option (PermissionsClaim * string) :=
  match s with
  | String "m" r => Some (NoClaim, r)
  | String "t" r =>
      match dec_string r with
      | Some (w, r') => Some (TextClaim w, r')
      | None => None
      end
  | String "l" r =>
      match dec_list r with
      | Some (l, r') => Some (ListClaim l, r')
      | None => None
      end
  | _ => None
  end.

Definition enc_content (c : Content) (tail : string) : string :=
  enc_string (email c) (enc_string (role c)
    (enc_permissions (permissions c) (enc_Z (iat c) (enc_Z (exp c) tail)))).

Definition dec_content (s : string) : option (Content * string) :=
  match dec_string s with
  | Some (e, s1) =>
  match dec_string s1 with
  | Some (r, s2) =>
  match dec_permissions s2 with
  | Some (ps, s3) =>
  match dec_Z s3 with
  | Some (i, s4) =>
  match dec_Z s4 with
  | Some (x, s5) =>
      Some ({| email := e; role := r; permissions := ps; iat := i; exp := x |},
            s5)
  | None => None end
  | None => None end
  | None => None end
  | None => None end
  | None => None end.

(** A keyed checksum over the text, modulo 2^32. *)
Fixpoint checksum (h : Z) (s : string) : Z :=
  match s with
  | EmptyString => h
  | String c r => checksum ((31 * h + Z.of_nat (nat_of_ascii c)) mod 4294967296) r
  end.

Definition mac (secret text : string) : string :=
  enc_Z (checksum (checksum 7 secret) text) EmptyString.

(** A token for any content, signed with [secret]. *)
Definition forge (c : Content) (secret : string) : string :=
  enc_content c (String "." (mac secret (enc_content c EmptyString))).

Definition sign (p : Jwt.Payload) (secret : string) (expiresIn now : Z) : string :=
  let issued := Jwt.clockTimestamp now in
  forge {| email := Jwt.email p; role := Jwt.role p;
           permissions := ListClaim (Jwt.permissions p);
           iat := issued; exp := issued + expiresIn |} secret.

Definition verify (token : Js.value) (secret : string) (now : Z) : Jwt.Verified :=
  if Js.truthy token then
    match dec_content (Js.str token) with
    | Some (c, signature) =>
        if String.eqb signature
             (String "." (mac secret (enc_content c EmptyString)))
        then if exp c <=? Jwt.clockTimestamp now
             then Jwt.Err Jwt.TokenExpired
             else Jwt.Ok (to_json c)
        else Jwt.Err Jwt.InvalidSignature
    | None => Jwt.Err Jwt.Malformed
    end
  else Jwt.Err Jwt.MustBeProvided.

Definition jwt : Jwt.Lib := {| Jwt.sign := sign; Jwt.verify := verify |}.

(** The stored hash carries the salt in front of the text it was made of. *)
Definition hashSync (plaintext : string) (rounds : Z) (salt : string) : string :=
  enc_string salt plaintext.

Definition compareSync (candidate hash : string) : bool :=
  match dec_string hash with
  | Some (_, stored) => String.eqb candidate stored
  | None => false
  end.

Definition bcrypt : Bcrypt.Lib :=
  {| Bcrypt.hashSync := hashSync; Bcrypt.compareSync := compareSync |}.

(** The server on the reference libraries, with no secret in the
    environment. *)
Definition post_login := Server.post_login jwt bcrypt None "s0" "s1".
Definition authenticateJWT := Server.authenticateJWT jwt None.
Definition get_entities := Server.get_entities jwt None.
Definition post_entities := Server.post_entities jwt None.

(** The token a response of [/login] carries. *)
Definition token_of (res : Express.Response) : string :=
  match Express.body res with
  | Express.JsonToken t => t
  | _ => EmptyString
  end.

Definition andrei : Req.LoginBody :=
  {| Req.email := Some (Js.Str "andrei@gmail.com");
     Req.password := Some (Js.Str "12345") |}.
Definition vasea : Req.LoginBody :=
  {| Req.email := Some (Js.Str "vasea@gmail.com");
     Req.password := Some (Js.Str "12345") |}.


(** The tokens the two users receive when they log in at [Date.now() = 1000],
    and the headers that present them. *)
Definition andrei_token : string := token_of (post_login andrei 1000).
Definition vasea_token : string := token_of (post_login vasea 1000).
Definition andrei_header : Js.value := Some ("Bearer " ++ andrei_token).
Definition vasea_header : Js.value := Some ("Bearer " ++ vasea_token).

(** What the two users' logins sign, and what the two tokens decode to. *)
Definition andrei_payload : Jwt.Payload :=
  {| Jwt.email := "andrei@gmail.com"; Jwt.role := "ADMIN";
     Jwt.permissions := ["WRITE"; "READ"] |}.
Definition vasea_payload : Jwt.Payload :=
  {| Jwt.email := "vasea@gmail.com"; Jwt.role := "READER";
     Jwt.permissions := ["READ"] |}.
Definition andrei_decoded : Js.json := Jwt.decoded andrei_payload 1 61.
Definition vasea_decoded : Js.json := Jwt.decoded vasea_payload 1 61.

(** Tokens signed with the fallback secret at [Date.now() = 1000] by
    somebody other than the server: one without a permissions claim, one
    whose permissions claim is a text. *)
Definition no_permissions_token : string :=
  forge {| email := "mallory@gmail.com"; role := "READER";
           permissions := NoClaim; iat := 1; exp := 61 |} "playboy".
Definition text_permissions_token : string :=
  forge {| email := "mallory@gmail.com"; role := "READER";
           permissions := TextClaim "UNREADABLE"; iat := 1; exp := 61 |} "playboy".

End Ref.

(* ------------------------------------------------------------------ *)
(** ** The reference implementations meet the laws *)

Lemma is_one_bit (b : bool) : Ref.is_one (Ref.bit b) = b.
Proof. destruct b; reflexivity. Qed.

Lemma dec_enc_string (s tail : string) :
  Ref.dec_string (Ref.enc_string s tail) = Some (s, tail).
Proof.
  induction s as [|c r IH]; [reflexivity|].
  destruct c as [b0 b1 b2 b3 b4 b5 b6 b7].
  cbn [Ref.enc_string Ref.enc_ascii Ref.dec_string].
  rewrite IH, !is_one_bit.
  destruct b0, b1, b2, b3, b4, b5, b6, b7; reflexivity.
Qed.

Lemma dec_list_word (w : string) (l : list string) (s tail : string) :
  Ref.dec_list s = Some (l, tail) ->
  Ref.dec_list (Ref.enc_string w s) = Some (w :: l, tail).
Proof.
  intros Hs.
  induction w as [|c r IH].
  - cbn [Ref.enc_string Ref.dec_list]. now rewrite Hs.
  - destruct c as [b0 b1 b2 b3 b4 b5 b6 b7].
    cbn [Ref.enc_string Ref.enc_ascii Ref.dec_list].
    rewrite IH, !is_one_bit. reflexivity.
Qed.

Lemma dec_enc_list (l : list string) (tail : string) :
  Ref.dec_list (Ref.enc_list l tail) = Some (l, tail).
Proof.
  induction l as [|w l IH]; [reflexivity|].
  cbn [Ref.enc_list]. now apply dec_list_word.
Qed.

Lemma dec_enc_pos (p : positive) (tail : string) :
  Ref.dec_pos (Ref.enc_pos p tail) = Some (p, tail).
Proof.
  induction p as [q IH|q IH|]; cbn [Ref.enc_pos Ref.dec_pos];
    try rewrite IH; reflexivity.
Qed.

Lemma dec_enc_Z (z : Z) (tail : string) :
  Ref.dec_Z (Ref.enc_Z z tail) = Some (z, tail).
Proof.
  destruct z; cbn [Ref.enc_Z Ref.dec_Z]; try rewrite dec_enc_pos; reflexivity.
Qed.

Lemma dec_enc_permissions (p : Ref.PermissionsClaim) (tail : string) :
  Ref.dec_permissions (Ref.enc_permissions p tail) = Some (p, tail).
Proof.
  destruct p; cbn [Ref.enc_permissions Ref.dec_permissions];
    try rewrite dec_enc_string; try rewrite dec_enc_list; reflexivity.
Qed.

Lemma dec_enc_content (c : Ref.Content) (tail : string) :
  Ref.dec_content (Ref.enc_content c tail) = Some (c, tail).
Proof.
  destruct c as [e r ps i x].
  unfold Ref.dec_content, Ref.enc_content.
  cbn [Ref.email Ref.role Ref.permissions Ref.iat Ref.exp].
  now rewrite !dec_enc_string, dec_enc_permissions, !dec_enc_Z.
Qed.

Lemma enc_content_truthy (c : Ref.Content) (tail : string) :
  Js.truthy (Some (Ref.enc_content c tail)) = true.
Proof. unfold Ref.enc_content. destruct (Ref.email c); reflexivity. Qed.

(** What [Ref.verify] answers on a forged token under the secret it was
    signed with: only the clock decides. *)
Lemma ref_verify_forge (c : Ref.Content) (secret : string) (now : Z) :
  Ref.verify (Some (Ref.forge c secret)) secret now =
    if Ref.exp c <=? Jwt.clockTimestamp now
    then Jwt.Err Jwt.TokenExpired
    else Jwt.Ok (Ref.to_json c).
Proof.
  unfold Ref.verify, Ref.forge.
  rewrite enc_content_truthy. cbn [Js.str].
  rewrite dec_enc_content, String.eqb_refl. reflexivity.
Qed.

(** What [Ref.verify] answers on a token made by [Ref.sign] under the same
    secret. *)
Lemma ref_verify_sign (p : Jwt.Payload) (secret : string) (d t now : Z) :
  Ref.verify (Some (Ref.sign p secret d t)) secret now =
    if Jwt.clockTimestamp t + d <=? Jwt.clockTimestamp now
    then Jwt.Err Jwt.TokenExpired
    else Jwt.Ok (Jwt.decoded p (Jwt.clockTimestamp t) (Jwt.clockTimestamp t + d)).
Proof. unfold Ref.sign. now rewrite ref_verify_forge. Qed.

Lemma enc_string_no_blank (s tail : string) :
  Js.string_includes (Ref.enc_string s tail) " " = Js.string_includes tail " ".
Proof.
  induction s as [|c r IH]; [reflexivity|].
  destruct c as [b0 b1 b2 b3 b4 b5 b6 b7].
  cbn [Ref.enc_string Ref.enc_ascii Js.string_includes]. rewrite IH.
  destruct b0, b1, b2, b3, b4, b5, b6, b7; reflexivity.
Qed.

Lemma enc_list_no_blank (l : list string) (tail : string) :
  Js.string_includes (Ref.enc_list l tail) " " = Js.string_includes tail " ".
Proof.
  induction l as [|w l IH]; [reflexivity|].
  cbn [Ref.enc_list]. now rewrite enc_string_no_blank.
Qed.

Lemma enc_pos_no_blank (p : positive) (tail : string) :
  Js.string_includes (Ref.enc_pos p tail) " " = Js.string_includes tail " ".
Proof.
  induction p as [q IH|q IH|]; cbn [Ref.enc_pos Js.string_includes];
    try rewrite IH; reflexivity.
Qed.

Lemma enc_Z_no_blank (z : Z) (tail : string) :
  Js.string_includes (Ref.enc_Z z tail) " " = Js.string_includes tail " ".
Proof.
  destruct z; cbn [Ref.enc_Z Js.string_includes];
    try rewrite enc_pos_no_blank; reflexivity.
Qed.

Lemma enc_content_no_blank (c : Ref.Content) (tail : string) :
  Js.string_includes (Ref.enc_content c tail) " " = Js.string_includes tail " ".
Proof.
  unfold Ref.enc_content. rewrite !enc_string_no_blank.
  destruct (Ref.permissions c); cbn [Ref.enc_permissions Js.string_includes];
    rewrite ?enc_string_no_blank, ?enc_list_no_blank, !enc_Z_no_blank;
    reflexivity.
Qed.

Lemma forge_no_blank (c : Ref.Content) (secret : string) :
  Js.string_includes (Ref.forge c secret) " " = false.
Proof.
  unfold Ref.forge, Ref.mac.
  rewrite enc_content_no_blank. cbn [Js.string_includes].
  now rewrite enc_Z_no_blank.
Qed.

Lemma ref_jwt_laws : Jwt.Laws Ref.jwt.
Proof.
  split; cbn [Jwt.verify Jwt.sign Ref.jwt].
  - reflexivity.
  - intros p secret d t now _ Hlt. rewrite ref_verify_sign.
    destruct (Z.leb_spec (Jwt.clockTimestamp t + d) (Jwt.clockTimestamp now));
      [lia | reflexivity].
  - intros p secret d t. apply forge_no_blank.
  - intros p secret d t now _ Hle. rewrite ref_verify_sign.
    destruct (Z.leb_spec (Jwt.clockTimestamp t + d) (Jwt.clockTimestamp now));
      [reflexivity | lia].
Qed.

Lemma ref_bcrypt_laws : Bcrypt.Laws Ref.bcrypt.
Proof.
  split. intros plaintext rounds salt.
  cbn [Bcrypt.compareSync Bcrypt.hashSync Ref.bcrypt].
  unfold Ref.compareSync, Ref.hashSync.
  now rewrite dec_enc_string, String.eqb_refl.
Qed.
(* ------------------------------------------------------------------ *)
(** ** Facts about the primitives *)

Lemma split_no_sep (sep : ascii) (s : string) :
  Js.string_includes s sep = false -> Js.split sep s = [s].
Proof.
  induction s as [|c r IH]; cbn [Js.string_includes Js.split]; intros H.
  - reflexivity.
  - apply orb_false_elim in H as [Hc Hr]. now rewrite Hc, (IH Hr).
Qed.

Lemma split_first_segment (sep : ascii) (w rest : string) :
  Js.string_includes w sep = false ->
  Js.split sep (w ++ String sep rest) = w :: Js.split sep rest.
Proof.
  induction w as [|c r IH]; cbn [Js.string_includes Js.split append]; intros H.
  - now rewrite Ascii.eqb_refl.
  - apply orb_false_elim in H as [Hc Hr]. now rewrite Hc, (IH Hr).
Qed.

(** The second segment of a header is the first segment of what follows
    the first blank, whatever the word in front of it is. *)
Lemma second_segment (w rest : string) :
  Js.string_includes w " " = false ->
  Js.index (Js.split " " (w ++ String " " rest)) 1 =
    Js.index (Js.split " " rest) 0.
Proof. intros H. now rewrite (split_first_segment _ _ _ H). Qed.

Lemma second_segment_token (w token : string) :
  Js.string_includes w " " = false ->
  Js.string_includes token " " = false ->
  Js.index (Js.split " " (w ++ String " " token)) 1 = Some token.
Proof.
  intros Hw Ht. rewrite (second_segment _ _ Hw), (split_no_sep _ _ Ht).
  reflexivity.
Qed.

Lemma second_segment_single_word (w : string) :
  Js.string_includes w " " = false ->
  Js.index (Js.split " " w) 1 = None.
Proof. intros H. now rewrite (split_no_sep _ _ H). Qed.

Lemma includes_In (arr : list string) (x : string) :
  Js.includes arr x = true <-> In x arr.
Proof.
  unfold Js.includes. rewrite existsb_exists. split.
  - intros (y & Hy & E). apply String.eqb_eq in E. now subst.
  - intros H. exists x. split; [assumption | apply String.eqb_refl].
Qed.


Lemma strict_eq_any_Str (p s : string) :
  Js.strict_eq_any p (Some (Js.Str s)) = String.eqb s p.
Proof. cbn. apply String.eqb_sym. Qed.

(** On an array of strings [includes_any] is [includes]. *)
Lemma includes_any_strings (held : list string) (p : string) :
  Js.includes_any (Some (Js.Arr (map Js.Str held))) p =
    Some (Js.includes held p).
Proof.
  cbn [Js.includes_any]. f_equal. unfold Js.includes.
  induction held as [|y held IH]; [reflexivity|].
  cbn [map existsb]. now rewrite strict_eq_any_Str, IH.
Qed.

Lemma every_throws_strings (held required : list string) :
  Js.every_throws
    (fun permission =>
       Js.includes_any (Some (Js.Arr (map Js.Str held))) permission)
    required =
  Some (Js.every (fun permission => Js.includes held permission) required).
Proof.
  induction required as [|p required IH]; [reflexivity|].
  cbn [Js.every_throws Js.every forallb]. rewrite includes_any_strings.
  destruct (Js.includes held p); [exact IH | reflexivity].
Qed.

(** [every_throws] gives [true] exactly when the callback gives [true] on
    every element. *)
Lemma every_throws_true {A : Type} (f : A -> option bool) (arr : list A) :
  Js.every_throws f arr = Some true <-> forall x, In x arr -> f x = Some true.
Proof.
  induction arr as [|a arr IH]; cbn [Js.every_throws].
  - split; [intros _ x [] | reflexivity].
  - destruct (f a) as [[|]|] eqn:Ha.
    + rewrite IH. split.
      * intros H x [<-|Hx]; auto.
      * intros H x Hx. apply H. now right.
    + split; [discriminate|]. intros H.
      specialize (H a (or_introl eq_refl)). congruence.
    + split; [discriminate|]. intros H.
      specialize (H a (or_introl eq_refl)). congruence.
Qed.

(** The permissions claim of a token made by [sign]. *)
Lemma decoded_permissions (p : Jwt.Payload) (iat exp : Z) :
  Js.get (Jwt.decoded p iat exp) "permissions" =
    Some (Js.Arr (map Js.Str (Jwt.permissions p))).
Proof. reflexivity. Qed.

(* ------------------------------------------------------------------ *)
(** ** Facts about the server *)

Lemma SECRET_KEY_not_empty (env : Js.value) :
  Server.SECRET_KEY env <> EmptyString.
Proof.
  unfold Server.SECRET_KEY, Js.or_else.
  destruct env as [[|c r]|]; cbn; discriminate.
Qed.

Section Guard.

Variable jwt : Jwt.Lib.
Variable env : Js.value.
Variable permissionsRequired : list string.
Variable now : Z.

Lemma guard_falsy (h : Js.value) :
  Js.truthy h = false ->
  Server.authenticateJWT jwt env permissionsRequired h now =
    Server.Respond (Express.sendStatus 401).
Proof. intros H. unfold Server.authenticateJWT. now rewrite H. Qed.

Lemma guard_err (h : Js.value) (err : Jwt.VerifyError) :
  Js.truthy h = true ->
  Jwt.verify jwt (Js.index (Js.split " " (Js.str h)) 1)
    (Server.SECRET_KEY env) now = Jwt.Err err ->
  Server.authenticateJWT jwt env permissionsRequired h now =
    Server.Respond (Express.sendStatus 403).
Proof. intros H E. unfold Server.authenticateJWT. now rewrite H, E. Qed.

Lemma guard_ok (h : Js.value) (user : Js.json) :
  Js.truthy h = true ->
  Jwt.verify jwt (Js.index (Js.split " " (Js.str h)) 1)
    (Server.SECRET_KEY env) now = Jwt.Ok user ->
  Server.authenticateJWT jwt env permissionsRequired h now =
    match Js.every_throws
            (fun permission =>
               Js.includes_any (Js.get user "permissions") permission)
            permissionsRequired
    with
    | Some true => Server.Next user
    | Some false => Server.Respond (Express.sendStatus 403)
    | None => Server.Throw
    end.
Proof. intros H E. unfold Server.authenticateJWT. now rewrite H, E. Qed.

(** The guard on a verified token whose every required permission is
    found. *)
Lemma guard_ok_next (h : Js.value) (user : Js.json) :
  Js.truthy h = true ->
  Jwt.verify jwt (Js.index (Js.split " " (Js.str h)) 1)
    (Server.SECRET_KEY env) now = Jwt.Ok user ->
  (forall permission, In permission permissionsRequired ->
     Js.includes_any (Js.get user "permissions") permission = Some true) ->
  Server.authenticateJWT jwt env permissionsRequired h now = Server.Next user.
Proof.
  intros H E Hall. rewrite (guard_ok h user H E).
  assert (Hevery :
    Js.every_throws
      (fun permission => Js.includes_any (Js.get user "permissions") permission)
      permissionsRequired = Some true)
    by (apply every_throws_true; exact Hall).
  now rewrite Hevery.
Qed.

End Guard.

(** With a lawful bcrypt, the password 12345 opens both configured
    accounts. *)
Lemma post_login_configured_users
    (jwt : Jwt.Lib) (bcrypt : Bcrypt.Lib) (HB : Bcrypt.Laws bcrypt)
    (env : Js.value) (salt0 salt1 : string) (u : User.t) (now : Z) :
  In u (Server.users bcrypt salt0 salt1) ->
  Server.post_login jwt bcrypt env salt0 salt1
    {| Req.email := Some (Js.Str (User.email u));
       Req.password := Some (Js.Str "12345") |} now =
  Express.status_json 200
    (Express.JsonToken
       (Jwt.sign jwt
          {| Jwt.email := User.email u; Jwt.role := User.role u;
             Jwt.permissions := User.permissions u |}
          (Server.SECRET_KEY env) Jwt.expiresIn_1m now)).
Proof.
  intros [<-|[<-|[]]]; unfold Server.post_login; cbn;
    now rewrite (Bcrypt.compare_hash _ HB).
Qed.

(* ------------------------------------------------------------------ *)
(** ** The guard: status codes *)

(** C1, as the code has it: a request whose Authorization header is missing
    (or empty) is answered 401 and the downstream handler is not invoked; a
    header that is present but is a single word, with no space-separated
    token, is answered 403, not 401, again without invoking the handler. *)
Theorem guard_missing_header_401_single_word_403
    (jwt : Jwt.Lib) (HJ : Jwt.Laws jwt) (env : Js.value)
    (permissionsRequired : list string) (now : Z) :
  (forall h, Js.truthy h = false ->
     Server.authenticateJWT jwt env permissionsRequired h now =
       Server.Respond (Express.sendStatus 401)) /\
  (forall w, Js.truthy (Some w) = true ->
     Js.string_includes w " " = false ->
     Server.authenticateJWT jwt env permissionsRequired (Some w) now =
       Server.Respond (Express.sendStatus 403)).
Proof.
  split.
  - intros h H. now apply guard_falsy.
  - intros w Hw Hb.
    apply guard_err with (err := Jwt.MustBeProvided); [assumption|].
    cbn [Js.str]. rewrite (second_segment_single_word _ Hb).
    apply (Jwt.verify_undefined _ HJ).
Qed.

Lemma guard_missing_header_401_single_word_403_witness :
  Ref.authenticateJWT ["READ"] None 0 =
    Server.Respond (Express.sendStatus 401) /\
  Ref.authenticateJWT ["READ"] (Some "Bearer") 0 =
    Server.Respond (Express.sendStatus 403).
Proof.
  destruct (guard_missing_header_401_single_word_403
              Ref.jwt ref_jwt_laws None ["READ"] 0) as [Hmissing Hword].
  split.
  - apply Hmissing. reflexivity.
  - apply Hword; reflexivity.
Defined.

(** C1 as stated fails: the header [Bearer], a single word with no token,
    is answered 403 and not 401. *)
Lemma single_word_header_is_not_401 :
  exists res,
    Server.authenticateJWT Ref.jwt None ["READ"] (Some "Bearer") 0 =
      Server.Respond res /\
    Express.statusCode res = 403 /\
    Express.statusCode res <> 401.
Proof.
  exists (Express.sendStatus 403). repeat split. cbn. discriminate.
Qed.

(** C2: when the token extracted from a presented header fails
    verification, whatever the error (malformed, wrong signature, expired),
    the guard answers 403 and does not invoke the downstream handler; in
    particular a token signed with the server's secret is answered 403 once
    the clock has reached its expiry. *)
Theorem guard_verification_error_403
    (jwt : Jwt.Lib) (HJ : Jwt.Laws jwt) (env : Js.value)
    (permissionsRequired : list string) (now : Z) :
  (forall h err, Js.truthy h = true ->
     Jwt.verify jwt (Js.index (Js.split " " (Js.str h)) 1)
       (Server.SECRET_KEY env) now = Jwt.Err err ->
     Server.authenticateJWT jwt env permissionsRequired h now =
       Server.Respond (Express.sendStatus 403)) /\
  (forall p issued,
     Jwt.clockTimestamp issued + Jwt.expiresIn_1m <= Jwt.clockTimestamp now ->
     Server.authenticateJWT jwt env permissionsRequired
       (Some ("Bearer " ++
              Jwt.sign jwt p (Server.SECRET_KEY env) Jwt.expiresIn_1m issued))
       now =
       Server.Respond (Express.sendStatus 403)).
Proof.
  split.
  - intros h err H E. now apply guard_err with (err := err).
  - intros p issued Hexp.
    apply guard_err with (err := Jwt.TokenExpired); [reflexivity|].
    cbn [Js.str].
    change ("Bearer " ++ ?t) with ("Bearer" ++ String " " t).
    rewrite second_segment_token;
      [| reflexivity | apply (Jwt.sign_no_blank _ HJ)].
    apply (Jwt.verify_expired _ HJ); [apply SECRET_KEY_not_empty | assumption].
Qed.

Lemma guard_verification_error_403_witness :
  Ref.authenticateJWT ["READ"] (Some "Bearer garbage") 0 =
    Server.Respond (Express.sendStatus 403) /\
  Ref.authenticateJWT ["READ"] Ref.vasea_header 61000 =
    Server.Respond (Express.sendStatus 403).
Proof.
  destruct (guard_verification_error_403
              Ref.jwt ref_jwt_laws None ["READ"] 0) as [Herr _].
  destruct (guard_verification_error_403
              Ref.jwt ref_jwt_laws None ["READ"] 61000) as [_ Hexpired].
  split.
  - apply (Herr (Some "Bearer garbage") Jwt.Malformed); reflexivity.
  - apply (Hexpired Ref.vasea_payload 1000).
    vm_compute. discriminate.
Defined.

(* ------------------------------------------------------------------ *)
(** ** The guard: permissions *)

Lemma includes_any_Arr (elems : list Js.json) (p : string) :
  Js.includes_any (Some (Js.Arr elems)) p = Some true <-> In (Js.Str p) elems.
Proof.
  cbn [Js.includes_any]. split.
  - intros E. injection E as E. apply existsb_exists in E as (e & He & Heq).
    destruct e; cbn in Heq; try discriminate Heq.
    apply String.eqb_eq in Heq. now subst.
  - intros H. f_equal. apply existsb_exists. exists (Js.Str p).
    split; [assumption | cbn; apply String.eqb_refl].
Qed.

Lemma every_throws_total {A : Type} (g : A -> bool) (arr : list A) :
  Js.every_throws (fun x => Some (g x)) arr = Some (forallb g arr).
Proof.
  induction arr as [|a arr IH]; [reflexivity|].
  cbn [Js.every_throws forallb]. destruct (g a); [exact IH | reflexivity].
Qed.

(** C3, the code at the failing input.  A token signed with the server's
    secret whose payload has no permissions claim verifies; on it the READ
    guard neither calls the downstream handler nor answers 403: reading
    [user.permissions.includes] throws, and [GET /entities] is answered 500
    by the default error handler. *)
Theorem guard_throws_without_permissions_claim :
  let h := Some ("Bearer " ++ Ref.no_permissions_token) in
  let user :=
    Js.Obj [ ("email", Js.Str "mallory@gmail.com"); ("role", Js.Str "READER");
             ("iat", Js.Num (inject_Z 1)); ("exp", Js.Num (inject_Z 61)) ] in
  Jwt.verify Ref.jwt (Js.index (Js.split " " (Js.str h)) 1)
    (Server.SECRET_KEY None) 2000 = Jwt.Ok user /\
  Js.get user "permissions" = None /\
  Server.authenticateJWT Ref.jwt None ["READ"] h 2000 = Server.Throw /\
  Server.get_entities Ref.jwt None
    {| Req.authorization := h; Req.skip := None; Req.limit := None;
       Req.name := None |} 2000 = Some Express.uncaught /\
  Express.statusCode Express.uncaught = 500.
Proof. cbv zeta. repeat split; vm_compute; reflexivity. Qed.

(** X13: the guard on a verified token, by the shape of its permissions
    claim.  When the claim is an array, the downstream handler is called
    exactly when every required permission is an element of it (a subset
    test), and the answer is 403 otherwise; when it is a string, the test
    is whether every required permission occurs in it as a substring; when
    it is anything else, or missing, and a permission is required, the
    guard throws; with nothing required the handler is always called. *)
Theorem guard_permission_subset
    (jwt : Jwt.Lib) (env : Js.value) (permissionsRequired : list string)
    (h : Js.value) (now : Z) (user : Js.json)
    (Hpresent : Js.truthy h = true)
    (Hverified :
       Jwt.verify jwt (Js.index (Js.split " " (Js.str h)) 1)
         (Server.SECRET_KEY env) now = Jwt.Ok user) :
  let outcome := Server.authenticateJWT jwt env permissionsRequired h now in
  let claim := Js.get user "permissions" in
  (forall elems, claim = Some (Js.Arr elems) ->
     let subset :=
       forall p, In p permissionsRequired -> In (Js.Str p) elems in
     (outcome = Server.Next user <-> subset) /\
     (~ subset -> outcome = Server.Respond (Express.sendStatus 403))) /\
  (forall s, claim = Some (Js.Str s) ->
     let occur :=
       forall p, In p permissionsRequired -> Js.includes_substring s p = true in
     (outcome = Server.Next user <-> occur) /\
     (~ occur -> outcome = Server.Respond (Express.sendStatus 403))) /\
  ((forall elems, claim <> Some (Js.Arr elems)) ->
   (forall s, claim <> Some (Js.Str s)) ->
   permissionsRequired <> [] ->
   outcome = Server.Throw) /\
  (permissionsRequired = [] -> outcome = Server.Next user).
Proof.
  cbv zeta.
  rewrite (guard_ok jwt env permissionsRequired now h user Hpresent Hverified).
  split; [|split; [|split]].
  - intros elems ->.
    assert (Hall :
      Js.every_throws
        (fun permission => Js.includes_any (Some (Js.Arr elems)) permission)
        permissionsRequired = Some true <->
      (forall p, In p permissionsRequired -> In (Js.Str p) elems)).
    { rewrite every_throws_true. split; intros H p Hp;
        apply includes_any_Arr; auto. }
    cbn [Js.includes_any] in *. rewrite every_throws_total in *.
    destruct (forallb _ permissionsRequired).
    + split; [split; [intros _; now apply Hall | reflexivity]|].
      intros Hn. exfalso. apply Hn. now apply Hall.
    + split; [split; [discriminate|]|reflexivity].
      intros H. apply Hall in H. discriminate H.
  - intros s ->.
    assert (Hall :
      Js.every_throws
        (fun permission => Js.includes_any (Some (Js.Str s)) permission)
        permissionsRequired = Some true <->
      (forall p, In p permissionsRequired -> Js.includes_substring s p = true)).
    { rewrite every_throws_true. cbn [Js.includes_any].
      split; intros H p Hp; specialize (H p Hp); congruence. }
    cbn [Js.includes_any] in *. rewrite every_throws_total in *.
    destruct (forallb _ permissionsRequired).
    + split; [split; [intros _; now apply Hall | reflexivity]|].
      intros Hn. exfalso. apply Hn. now apply Hall.
    + split; [split; [discriminate|]|reflexivity].
      intros H. apply Hall in H. discriminate H.
  - intros Harr Hstr Hne.
    destruct permissionsRequired as [|p rest]; [congruence|].
    cbn [Js.every_throws].
    destruct (Js.get user "permissions") as [[| | | s | elems |]|];
      try reflexivity.
    + now destruct (Hstr s).
    + now destruct (Harr elems).
  - intros ->. reflexivity.
Qed.

(** The admin's token carries WRITE and READ: it passes the READ guard, a
    strict subset; the reader's token does not pass the WRITE guard; a text
    claim that merely contains the letters READ passes the READ guard. *)
Lemma guard_permission_subset_witness :
  Ref.authenticateJWT ["READ"] Ref.andrei_header 2000 =
    Server.Next Ref.andrei_decoded /\
  Ref.authenticateJWT ["WRITE"] Ref.vasea_header 2000 =
    Server.Respond (Express.sendStatus 403) /\
  (exists user,
     Ref.authenticateJWT ["READ"]
       (Some ("Bearer " ++ Ref.text_permissions_token)) 2000 =
       Server.Next user) /\
  Ref.authenticateJWT ["READ"]
    (Some ("Bearer " ++ Ref.no_permissions_token)) 2000 = Server.Throw.
Proof.
  split; [|split; [|split]].
  - apply (proj1 (guard_permission_subset Ref.jwt None ["READ"]
                    Ref.andrei_header 2000 Ref.andrei_decoded eq_refl eq_refl)
             [Js.Str "WRITE"; Js.Str "READ"] eq_refl).
    intros p [<-|[]]. right. left. reflexivity.
  - apply (proj1 (guard_permission_subset Ref.jwt None ["WRITE"]
                    Ref.vasea_header 2000 Ref.vasea_decoded eq_refl eq_refl)
             [Js.Str "READ"] eq_refl).
    intros Hsub. destruct (Hsub "WRITE" (or_introl eq_refl)) as [E|[]].
    discriminate E.
  - eexists.
    refine (proj2 (proj1 (proj1 (proj2 (guard_permission_subset Ref.jwt None
              ["READ"] (Some ("Bearer " ++ Ref.text_permissions_token)) 2000
              _ eq_refl eq_refl)) "UNREADABLE" eq_refl)) _).
    intros p [<-|[]]. reflexivity.
  - refine (proj1 (proj2 (proj2 (guard_permission_subset Ref.jwt None
              ["READ"] (Some ("Bearer " ++ Ref.no_permissions_token)) 2000
              _ eq_refl eq_refl))) _ _ _); discriminate.
Defined.

(** C9: the scheme word is never looked at.  A header made of any word
    without a blank, a blank and a token is treated exactly as the header
    [Bearer], a blank and that token; when the token verifies and carries
    the required permissions ([user.permissions.includes] finds each of
    them) the request reaches the downstream handler. *)
Theorem guard_ignores_scheme
    (jwt : Jwt.Lib) (env : Js.value) (permissionsRequired : list string)
    (scheme token : string) (now : Z)
    (Hscheme : Js.string_includes scheme " " = false) :
  Server.authenticateJWT jwt env permissionsRequired
    (Some (scheme ++ " " ++ token)) now =
  Server.authenticateJWT jwt env permissionsRequired
    (Some ("Bearer " ++ token)) now
  /\
  (forall user,
     Js.string_includes token " " = false ->
     Jwt.verify jwt (Some token) (Server.SECRET_KEY env) now = Jwt.Ok user ->
     (forall permission, In permission permissionsRequired ->
        Js.includes_any (Js.get user "permissions") permission = Some true) ->
     Server.authenticateJWT jwt env permissionsRequired
       (Some (scheme ++ " " ++ token)) now = Server.Next user).
Proof.
  assert (Hhdr : Js.truthy (Some (scheme ++ " " ++ token)) = true)
    by (destruct scheme; reflexivity).
  split.
  - unfold Server.authenticateJWT. rewrite Hhdr. cbn [Js.truthy Js.str append].
    rewrite (second_segment scheme token Hscheme).
    change (String "B" (String "e" (String "a" (String "r" (String "e"
              (String "r" (String " " token)))))))
      with ("Bearer" ++ String " " token).
    now rewrite (second_segment "Bearer" token eq_refl).
  - intros user Htoken Hverified Hsub.
    apply (guard_ok_next jwt env permissionsRequired now _ user Hhdr);
      [|exact Hsub].
    cbn [Js.str append].
    now rewrite (second_segment_token scheme token Hscheme Htoken).
Qed.

Lemma guard_ignores_scheme_witness :
  Ref.authenticateJWT ["READ"] (Some ("Basic " ++ Ref.vasea_token)) 2000 =
  Ref.authenticateJWT ["READ"] (Some ("Bearer " ++ Ref.vasea_token)) 2000
  /\
  Ref.authenticateJWT ["READ"] (Some ("Basic " ++ Ref.vasea_token)) 2000 =
    Server.Next Ref.vasea_decoded.
Proof.
  destruct (guard_ignores_scheme Ref.jwt None ["READ"] "Basic" Ref.vasea_token
              2000 eq_refl) as [Hsame Hnext].
  split; [exact Hsame|].
  apply Hnext.
  - vm_compute. reflexivity.
  - vm_compute. reflexivity.
  - intros x [<-|[]]. reflexivity.
Defined.

(** C6, as the code has it: every rejection by the guard is made with
    [res.sendStatus], so it carries the status code together with the
    registered status text of that code as its body, [Unauthorized] for 401
    and [Forbidden] for 403; no JSON message, and nothing that depends on
    the permissions required or held. *)
Theorem guard_rejection_body
    (jwt : Jwt.Lib) (env : Js.value) (permissionsRequired : list string)
    (h : Js.value) (now : Z) (res : Express.Response)
    (Hrejected :
       Server.authenticateJWT jwt env permissionsRequired h now =
         Server.Respond res) :
  res = {| Express.statusCode := 401; Express.body := Express.Text "Unauthorized" |}
  \/
  res = {| Express.statusCode := 403; Express.body := Express.Text "Forbidden" |}.
Proof.
  unfold Server.authenticateJWT in Hrejected.
  destruct (Js.truthy h).
  - right.
    destruct (Jwt.verify jwt _ _ now) as [err|user].
    + now inversion Hrejected.
    + destruct (Js.every_throws _ permissionsRequired) as [[|]|];
        [discriminate Hrejected | now inversion Hrejected
        | discriminate Hrejected].
  - left. now inversion Hrejected.
Qed.

Lemma guard_rejection_body_witness :
  Express.sendStatus 403 =
    {| Express.statusCode := 401; Express.body := Express.Text "Unauthorized" |}
  \/
  Express.sendStatus 403 =
    {| Express.statusCode := 403; Express.body := Express.Text "Forbidden" |}.
Proof.
  apply (guard_rejection_body Ref.jwt None ["WRITE"] Ref.vasea_header 2000).
  vm_compute. reflexivity.
Defined.

(** C6 as stated fails: the 401 answer to a request without a header has
    the text [Unauthorized] as its body. *)
Lemma rejection_carries_a_body :
  exists res,
    Server.authenticateJWT Ref.jwt None ["READ"] None 0 = Server.Respond res /\
    Express.statusCode res = 401 /\
    Express.body res = Express.Text "Unauthorized" /\
    Express.body res <> Express.NoBody.
Proof.
  exists (Express.sendStatus 401). repeat split. cbn. discriminate.
Qed.

(* ------------------------------------------------------------------ *)
(** ** Login *)

(** C4, as the code has it, for every parsed body, whatever JSON its two
    fields are: [POST /login] answers 400 with a message when the email or
    the password is absent or falsy (the empty string, [null], [false],
    0); when both are truthy and the email matches no configured user, or
    it matches one and the password is a string that does not verify
    against the stored hash, it answers 401 with one and the same message
    in both cases; when the email matches a configured user and the
    password is a string that verifies, it answers 200 with a token. *)
Theorem post_login_responses
    (jwt : Jwt.Lib) (bcrypt : Bcrypt.Lib) (env : Js.value) (salt0 salt1 : string)
    (body : Req.LoginBody) (now : Z) :
  let found :=
    Js.find (fun u => Js.strict_eq_any (User.email u) (Req.email body))
      (Server.users bcrypt salt0 salt1) in
  let res := Server.post_login jwt bcrypt env salt0 salt1 body now in
  (Js.truthy_any (Req.email body) && Js.truthy_any (Req.password body) = false ->
   res = Express.status_json 400
           (Express.JsonMessage "Email and password are required")) /\
  (Js.truthy_any (Req.email body) && Js.truthy_any (Req.password body) = true ->
   (found = None \/
    exists u candidate,
      found = Some u /\
      Req.password body = Some (Js.Str candidate) /\
      Bcrypt.compareSync bcrypt candidate (User.password u) = false) ->
   res = Express.status_json 401
           (Express.JsonMessage "Invalid email or password")) /\
  (Js.truthy_any (Req.email body) && Js.truthy_any (Req.password body) = true ->
   forall u candidate,
     found = Some u ->
     Req.password body = Some (Js.Str candidate) ->
     Bcrypt.compareSync bcrypt candidate (User.password u) = true ->
     res = Express.status_json 200
             (Express.JsonToken
                (Jwt.sign jwt
                   {| Jwt.email := User.email u; Jwt.role := User.role u;
                      Jwt.permissions := User.permissions u |}
                   (Server.SECRET_KEY env) Jwt.expiresIn_1m now))).
Proof.
  intros found res. subst found res. unfold Server.post_login.
  split; [|split].
  - intros H. now rewrite H.
  - intros H [E|(u & candidate & E & Hp & Hc)]; rewrite H, E; [reflexivity|].
    rewrite Hp. cbn [Bcrypt.compareSync_any]. now rewrite Hc.
  - intros H u candidate E Hp Hc. rewrite H, E, Hp.
    cbn [Bcrypt.compareSync_any]. now rewrite Hc.
Qed.

Lemma post_login_responses_witness :
  Ref.post_login
    {| Req.email := Some Js.Null; Req.password := Some (Js.Str "12345") |} 1000 =
    Express.status_json 400
      (Express.JsonMessage "Email and password are required") /\
  Ref.post_login
    {| Req.email := Some (Js.Str "nobody@gmail.com");
       Req.password := Some (Js.Bool true) |} 1000 =
    Express.status_json 401 (Express.JsonMessage "Invalid email or password") /\
  Ref.post_login
    {| Req.email := Some (Js.Str "vasea@gmail.com");
       Req.password := Some (Js.Str "54321") |} 1000 =
    Express.status_json 401 (Express.JsonMessage "Invalid email or password") /\
  Ref.post_login Ref.vasea 1000 =
    Express.status_json 200 (Express.JsonToken Ref.vasea_token).
Proof.
  split; [|split; [|split]].
  - apply (post_login_responses Ref.jwt Ref.bcrypt None "s0" "s1"
             {| Req.email := Some Js.Null;
                Req.password := Some (Js.Str "12345") |} 1000).
    reflexivity.
  - apply (post_login_responses Ref.jwt Ref.bcrypt None "s0" "s1"
             {| Req.email := Some (Js.Str "nobody@gmail.com");
                Req.password := Some (Js.Bool true) |} 1000).
    + reflexivity.
    + left. reflexivity.
  - apply (post_login_responses Ref.jwt Ref.bcrypt None "s0" "s1"
             {| Req.email := Some (Js.Str "vasea@gmail.com");
                Req.password := Some (Js.Str "54321") |} 1000).
    + reflexivity.
    + right. do 2 eexists. repeat split; reflexivity.
  - refine (proj2 (proj2 (post_login_responses Ref.jwt Ref.bcrypt None "s0" "s1"
             Ref.vasea 1000)) eq_refl _ "12345" eq_refl eq_refl eq_refl).
Defined.

(** C4 as stated fails: with the email present but empty, which matches no
    configured user, and a password present, the answer is 400 and not
    401. *)
Lemma empty_email_login_is_400_not_401 :
  let body := {| Req.email := Some (Js.Str "");
                 Req.password := Some (Js.Str "12345") |} in
  Req.email body <> None /\
  Req.password body <> None /\
  Js.find (fun u => Js.strict_eq_any (User.email u) (Req.email body))
    (Server.users Ref.bcrypt "s0" "s1") = None /\
  Express.statusCode (Server.post_login Ref.jwt Ref.bcrypt None "s0" "s1" body 1000)
    = 400 /\
  Express.statusCode (Server.post_login Ref.jwt Ref.bcrypt None "s0" "s1" body 1000)
    <> 401.
Proof. cbv zeta. repeat split; try discriminate. Qed.

(** C10: the presence checks are truthiness checks.  A login whose email or
    password is the empty string is answered 400, exactly as when the field
    is absent; [POST /entities] with a token that passes the WRITE guard and
    an empty name is answered 400, exactly as when the name is absent. *)
Theorem empty_string_fields_are_400
    (jwt : Jwt.Lib) (bcrypt : Bcrypt.Lib) (env : Js.value) (salt0 salt1 : string)
    (now : Z) :
  let login := Server.post_login jwt bcrypt env salt0 salt1 in
  let required :=
    Express.status_json 400
      (Express.JsonMessage "Email and password are required") in
  (forall password,
     login {| Req.email := Some (Js.Str ""); Req.password := password |} now = required /\
     login {| Req.email := None; Req.password := password |} now = required) /\
  (forall email,
     login {| Req.email := email; Req.password := Some (Js.Str "") |} now = required /\
     login {| Req.email := email; Req.password := None |} now = required) /\
  (forall authorization skip limit user,
     Server.authenticateJWT jwt env ["WRITE"] authorization now =
       Server.Next user ->
     let invalid :=
       Express.status_json 400 (Express.JsonMessage "Invalid input") in
     Server.post_entities jwt env
       {| Req.authorization := authorization; Req.skip := skip;
          Req.limit := limit; Req.name := Some (Js.Str "") |} now = invalid /\
     Server.post_entities jwt env
       {| Req.authorization := authorization; Req.skip := skip;
          Req.limit := limit; Req.name := None |} now = invalid).
Proof.
  cbv zeta. split; [|split].
  - intros password. split; reflexivity.
  - intros email. unfold Server.post_login. cbn [Req.email Req.password Js.truthy_any Js.truthy].
    rewrite andb_false_r. split; reflexivity.
  - intros authorization skip limit user Hguard.
    unfold Server.post_entities. cbn [Req.authorization].
    rewrite Hguard. split; reflexivity.
Qed.

Lemma empty_string_fields_are_400_witness :
  Ref.post_login {| Req.email := Some (Js.Str ""); Req.password := Some (Js.Str "12345") |} 1000 =
    Express.status_json 400
      (Express.JsonMessage "Email and password are required") /\
  Ref.post_login
    {| Req.email := Some (Js.Str "andrei@gmail.com"); Req.password := Some (Js.Str "") |} 1000 =
    Express.status_json 400
      (Express.JsonMessage "Email and password are required") /\
  Ref.post_entities
    {| Req.authorization := Ref.andrei_header; Req.skip := None;
       Req.limit := None; Req.name := Some (Js.Str "") |} 2000 =
    Express.status_json 400 (Express.JsonMessage "Invalid input").
Proof.
  destruct (empty_string_fields_are_400 Ref.jwt Ref.bcrypt None "s0" "s1" 1000)
    as (Hemail & Hpassword & _).
  destruct (empty_string_fields_are_400 Ref.jwt Ref.bcrypt None "s0" "s1" 2000)
    as (_ & _ & Hname).
  split; [|split].
  - exact (proj1 (Hemail (Some (Js.Str "12345")))).
  - exact (proj1 (Hpassword (Some (Js.Str "andrei@gmail.com")))).
  - apply (Hname Ref.andrei_header None None Ref.andrei_decoded).
    vm_compute. reflexivity.
Defined.

(** A 200 answer of [/login] for the email of a configured user carries
    the signature of that user's record. *)
Lemma post_login_200_signed
    (jwt : Jwt.Lib) (bcrypt : Bcrypt.Lib) (env : Js.value) (salt0 salt1 : string)
    (u : User.t) (password : Js.any) (issued : Z) (token : string) :
  In u (Server.users bcrypt salt0 salt1) ->
  Server.post_login jwt bcrypt env salt0 salt1
    {| Req.email := Some (Js.Str (User.email u)); Req.password := password |}
    issued = Express.status_json 200 (Express.JsonToken token) ->
  token = Jwt.sign jwt
            {| Jwt.email := User.email u; Jwt.role := User.role u;
               Jwt.permissions := User.permissions u |}
            (Server.SECRET_KEY env) Jwt.expiresIn_1m issued.
Proof.
  intros Hu Hlogin. unfold Server.post_login in Hlogin.
  destruct Hu as [<-|[<-|[]]];
    cbn [Req.email Req.password User.email User.role User.permissions
         Js.truthy_any Js.truthy andb] in Hlogin;
    destruct (Js.truthy_any password); try discriminate Hlogin;
    cbn in Hlogin;
    match type of Hlogin with
    | match ?c with _ => _ end = _ => destruct c as [[|]|]
    end; try discriminate Hlogin;
    now inversion Hlogin.
Qed.

(** The permissions a token made by [sign] is found to hold are those that
    were signed. *)
Lemma decoded_includes (p : Jwt.Payload) (iat exp : Z) (permission : string) :
  Js.includes_any (Js.get (Jwt.decoded p iat exp) "permissions") permission =
    Some (Js.includes (Jwt.permissions p) permission).
Proof. rewrite decoded_permissions. apply includes_any_strings. Qed.

(** C5: for every configured user, the token of a successful login of that
    user verifies, at every moment before its expiry, to claims whose
    email, role and permissions are exactly the user's; the guard hands
    these same claims to the downstream handler.  The claims come from the
    token alone. *)
Theorem login_token_roundtrip
    (jwt : Jwt.Lib) (HJ : Jwt.Laws jwt) (bcrypt : Bcrypt.Lib)
    (env : Js.value) (salt0 salt1 : string)
    (u : User.t) (password : Js.any) (issued now : Z) (token : string)
    (Hu : In u (Server.users bcrypt salt0 salt1))
    (Hlogin :
       Server.post_login jwt bcrypt env salt0 salt1
         {| Req.email := Some (Js.Str (User.email u));
            Req.password := password |}
         issued =
       Express.status_json 200 (Express.JsonToken token))
    (Hlife :
       Jwt.clockTimestamp now < Jwt.clockTimestamp issued + Jwt.expiresIn_1m) :
  exists user,
    Jwt.verify jwt (Some token) (Server.SECRET_KEY env) now = Jwt.Ok user /\
    Js.get user "email" = Some (Js.Str (User.email u)) /\
    Js.get user "role" = Some (Js.Str (User.role u)) /\
    Js.get user "permissions" =
      Some (Js.Arr (map Js.Str (User.permissions u))) /\
    (forall required, incl required (User.permissions u) ->
       Server.authenticateJWT jwt env required (Some ("Bearer " ++ token)) now =
         Server.Next user).
Proof.
  pose proof (post_login_200_signed jwt bcrypt env salt0 salt1 u password
                issued token Hu Hlogin) as Hsigned.
  assert (Hverify :
    Jwt.verify jwt (Some token) (Server.SECRET_KEY env) now =
      Jwt.Ok (Jwt.decoded
                {| Jwt.email := User.email u; Jwt.role := User.role u;
                   Jwt.permissions := User.permissions u |}
                (Jwt.clockTimestamp issued)
                (Jwt.clockTimestamp issued + Jwt.expiresIn_1m))).
  { rewrite Hsigned.
    apply (Jwt.verify_sign _ HJ); [apply SECRET_KEY_not_empty | exact Hlife]. }
  eexists. split; [exact Hverify|]. split; [reflexivity|].
  split; [reflexivity|]. split; [reflexivity|].
  intros required Hsub.
  apply (guard_ok_next jwt env required now (Some ("Bearer " ++ token)) _
           eq_refl).
  - cbn [Js.str].
    change ("Bearer " ++ token) with ("Bearer" ++ String " " token).
    rewrite second_segment_token;
      [exact Hverify | reflexivity
      | rewrite Hsigned; apply (Jwt.sign_no_blank _ HJ)].
  - intros permission Hp. rewrite decoded_includes. f_equal.
    apply includes_In. cbn [Jwt.permissions]. auto.
Qed.

(** The reader logs in at 1000 ms; just before the clock reaches the expiry
    (second 61) the token still decodes to the reader's record. *)
Lemma login_token_roundtrip_witness :
  exists user,
    Jwt.verify Ref.jwt (Some Ref.vasea_token) (Server.SECRET_KEY None) 60999 =
      Jwt.Ok user /\
    Js.get user "email" = Some (Js.Str "vasea@gmail.com") /\
    Js.get user "role" = Some (Js.Str "READER") /\
    Js.get user "permissions" = Some (Js.Arr [Js.Str "READ"]).
Proof.
  destruct (login_token_roundtrip Ref.jwt ref_jwt_laws Ref.bcrypt None "s0" "s1"
              {| User.email := "vasea@gmail.com";
                 User.password := Bcrypt.hashSync Ref.bcrypt "12345" 5 "s1";
                 User.role := "READER";
                 User.permissions := ["READ"] |}
              (Some (Js.Str "12345")) 1000 60999 Ref.vasea_token)
    as (user & Hverify & Hemail & Hrole & Hpermissions & _).
  - right. left. reflexivity.
  - vm_compute. reflexivity.
  - vm_compute. reflexivity.
  - exists user. repeat split; assumption.
Defined.

(* ------------------------------------------------------------------ *)
(** ** Configuration *)

(** C7: the signing secret is fixed from the environment when the module is
    loaded; with no secret configured (the variable unset, or empty) it is
    the literal [playboy], and the server then signs and verifies exactly as
    if that literal had been configured.  A configured secret is used as it
    is. *)
Theorem SECRET_KEY_fallback :
  Server.SECRET_KEY None = "playboy" /\
  Server.SECRET_KEY (Some "") = "playboy" /\
  (forall c r, Server.SECRET_KEY (Some (String c r)) = String c r) /\
  (forall jwt bcrypt salt0 salt1 body now,
     Server.post_login jwt bcrypt None salt0 salt1 body now =
     Server.post_login jwt bcrypt (Some "playboy") salt0 salt1 body now) /\
  (forall jwt permissionsRequired authorization now,
     Server.authenticateJWT jwt None permissionsRequired authorization now =
     Server.authenticateJWT jwt (Some "playboy") permissionsRequired
       authorization now) /\
  (forall jwt bcrypt salt0 salt1 now,
     Server.post_login jwt bcrypt None salt0 salt1 Ref.andrei now =
     if Bcrypt.compareSync bcrypt "12345"
          (Bcrypt.hashSync bcrypt "12345" 5 salt0)
     then Express.status_json 200
            (Express.JsonToken
               (Jwt.sign jwt
                  {| Jwt.email := "andrei@gmail.com"; Jwt.role := "ADMIN";
                     Jwt.permissions := ["WRITE"; "READ"] |}
                  "playboy" 60 now))
     else Express.status_json 401
            (Express.JsonMessage "Invalid email or password")).
Proof.
  repeat split.
Qed.

(* ------------------------------------------------------------------ *)
(** ** The entity routes *)

(** C8: [GET /entities?skip=5&limit=3] with a header whose token verifies
    (valid and unexpired) to claims whose permissions include READ
    ([user.permissions.includes('READ')] holds) is answered 200 with
    exactly the entities 5, 6 and 7: the slice from [skip] to
    [skip + limit] of the 100 generated entities. *)
Theorem get_entities_skip5_limit3
    (jwt : Jwt.Lib) (env : Js.value) (h : Js.value) (name : Js.any) (now : Z)
    (user : Js.json)
    (Hpresent : Js.truthy h = true)
    (Hverified :
       Jwt.verify jwt (Js.index (Js.split " " (Js.str h)) 1)
         (Server.SECRET_KEY env) now = Jwt.Ok user)
    (Hread : Js.includes_any (Js.get user "permissions") "READ" = Some true) :
  Server.get_entities jwt env
    {| Req.authorization := h; Req.skip := Some "5"; Req.limit := Some "3";
       Req.name := name |} now =
    Some (Express.status_json 200
            (Express.JsonEntities
               [ {| Express.id := 5; Express.name := "Entity 5" |};
                 {| Express.id := 6; Express.name := "Entity 6" |};
                 {| Express.id := 7; Express.name := "Entity 7" |} ]))
  /\ length Server.entities = 100%nat
  /\ Js.slice Server.entities 5 (5 + 3) =
       [ {| Express.id := 5; Express.name := "Entity 5" |};
         {| Express.id := 6; Express.name := "Entity 6" |};
         {| Express.id := 7; Express.name := "Entity 7" |} ].
Proof.
  split; [|split; reflexivity].
  unfold Server.get_entities. cbn [Req.authorization].
  rewrite (guard_ok jwt env ["READ"] now h user Hpresent Hverified).
  cbn [Js.every_throws]. rewrite Hread. reflexivity.
Qed.

Lemma get_entities_skip5_limit3_witness :
  Ref.get_entities
    {| Req.authorization := Ref.vasea_header; Req.skip := Some "5";
       Req.limit := Some "3"; Req.name := None |} 2000 =
    Some (Express.status_json 200
            (Express.JsonEntities
               [ {| Express.id := 5; Express.name := "Entity 5" |};
                 {| Express.id := 6; Express.name := "Entity 6" |};
                 {| Express.id := 7; Express.name := "Entity 7" |} ])).
Proof.
  apply (get_entities_skip5_limit3 Ref.jwt None Ref.vasea_header None 2000
           Ref.vasea_decoded).
  - reflexivity.
  - vm_compute. reflexivity.
  - reflexivity.
Defined.

(* ------------------------------------------------------------------ *)
(** ** Numbers in the query string *)

Lemma digit_range (c : ascii) (d : Z) : Js.digit c = Some d -> 0 <= d <= 9.
Proof.
  unfold Js.digit.
  destruct (Z.leb_spec 48 (Z.of_nat (nat_of_ascii c)));
    destruct (Z.leb_spec (Z.of_nat (nat_of_ascii c)) 57);
    cbn [andb]; intros E; inversion E; lia.
Qed.

Lemma digits_nonneg (s : string) (acc z : Z) :
  0 <= acc -> Js.digits acc s = Some z -> acc <= z.
Proof.
  revert acc. induction s as [|c r IH]; cbn [Js.digits]; intros acc Hacc E.
  - inversion E. lia.
  - destruct (Js.digit c) as [d|] eqn:Hd; [|discriminate E].
    apply digit_range in Hd. apply IH in E; lia.
Qed.

Lemma Number_nonneg (s : string) (z : Z) : Js.Number s = Some z -> 0 <= z.
Proof. intros E. apply (digits_nonneg s 0 z); [lia | exact E]. Qed.

Lemma digits_string_of_uint (d : Decimal.uint) (acc : Z) :
  0 <= acc ->
  Js.digits acc (NilEmpty.string_of_uint d) =
    Some (Z.of_nat (Nat.of_uint_acc d (Z.to_nat acc))).
Proof.
  revert acc.
  induction d as [|d IH|d IH|d IH|d IH|d IH|d IH|d IH|d IH|d IH|d IH];
    intros acc Hacc;
    cbn [NilEmpty.string_of_uint Js.digits Nat.of_uint_acc];
    [ f_equal; lia | .. ];
    (change (Js.digit _) with (Some 0) || change (Js.digit _) with (Some 1)
     || change (Js.digit _) with (Some 2) || change (Js.digit _) with (Some 3)
     || change (Js.digit _) with (Some 4) || change (Js.digit _) with (Some 5)
     || change (Js.digit _) with (Some 6) || change (Js.digit _) with (Some 7)
     || change (Js.digit _) with (Some 8) || change (Js.digit _) with (Some 9));
    cbv iota; rewrite IH by lia; rewrite Nat.tail_mul_spec;
    match goal with
    | |- Some (Z.of_nat (Nat.of_uint_acc d ?a)) =
         Some (Z.of_nat (Nat.of_uint_acc d ?b)) =>
        replace a with b by lia; reflexivity
    end.
Qed.

(** [Number] reads back the decimal text of every natural number:
    [Number(String(n))] is [n]. *)
Lemma Number_toString (n : nat) :
  Js.Number (Js.toString n) = Some (Z.of_nat n).
Proof.
  assert (H : forall d, Js.digits 0 (NilZero.string_of_uint d) =
                        Some (Z.of_nat (Nat.of_uint d))).
  { intros d. destruct d; [reflexivity | ..];
      refine (digits_string_of_uint _ 0 _); lia. }
  unfold Js.Number, Js.toString.
  now rewrite H, DecimalNat.Unsigned.of_to.
Qed.

(* ------------------------------------------------------------------ *)
(** ** Pagination *)

Lemma firstn_seq_min (n a len : nat) :
  firstn n (seq a len) = seq a (Nat.min n len).
Proof.
  revert a len. induction n as [|n IH]; intros a [|len]; cbn; try reflexivity.
  now rewrite IH.
Qed.

(** A slice of a generated array, for a start and a count that are not
    negative: the elements from [start] on, at most [count] of them, cut at
    the end of the array. *)
Lemma slice_Array_from {A : Type} (f : nat -> A) (n : nat) (s l : Z) :
  0 <= s -> 0 <= l ->
  Js.slice (Js.Array_from n f) s (s + l) =
    map f (seq (Nat.min (Z.to_nat s) n) (Nat.min (Z.to_nat l) (n - Z.to_nat s))).
Proof.
  intros Hs Hl. unfold Js.slice, Js.Array_from, Js.relative.
  rewrite length_map, length_seq.
  destruct (Z.ltb_spec s 0); [lia|].
  destruct (Z.ltb_spec (s + l) 0); [lia|].
  rewrite skipn_map, firstn_map, skipn_seq, firstn_seq_min.
  f_equal. f_equal; lia.
Qed.

(** The value the handler gives to a query parameter: its default when the
    parameter is absent, [Number] of its text otherwise. *)
Lemma get_entities_handler_slice (req : Req.Entities) (s l : Z) :
  match Req.skip req with
  | Some text => Js.Number text = Some s
  | None => s = 0
  end ->
  match Req.limit req with
  | Some text => Js.Number text = Some l
  | None => l = 10
  end ->
  0 <= s /\ 0 <= l /\
  Server.get_entities_handler req =
    Some (Express.status_json 200
            (Express.JsonEntities (Js.slice Server.entities s (s + l)))).
Proof.
  intros Hs Hl. unfold Server.get_entities_handler.
  destruct (Req.skip req) as [ts|]; destruct (Req.limit req) as [tl|];
    try (pose proof (Number_nonneg _ _ Hs));
    try (pose proof (Number_nonneg _ _ Hl));
    try rewrite Hs; try rewrite Hl; subst; repeat split; lia.
Qed.

(** X1: the page [GET /entities] answers with when each of the query
    parameters [skip] and [limit] is absent or a string of decimal digits
    (leading zeros allowed, the empty string counting as 0).  With [skip]
    and [limit] the numbers these strings denote (0 and 10 when absent),
    the handler answers 200 with the entities of ids [skip], [skip + 1],
    ... : at most [limit] of them, stopping at id 99, each named [Entity]
    and its id; the page is empty when [skip] is 100 or more. *)
Theorem get_entities_handler_page (req : Req.Entities) (s l : nat)
    (Hskip : match Req.skip req with
             | Some text => Js.Number text = Some (Z.of_nat s)
             | None => s = 0%nat
             end)
    (Hlimit : match Req.limit req with
              | Some text => Js.Number text = Some (Z.of_nat l)
              | None => l = 10%nat
              end) :
  Server.get_entities_handler req =
    Some (Express.status_json 200
            (Express.JsonEntities
               (map (fun i => {| Express.id := Z.of_nat i;
                                 Express.name := "Entity " ++ Js.toString i |})
                    (seq (Nat.min s 100) (Nat.min l (100 - s)))))).
Proof.
  destruct (get_entities_handler_slice req (Z.of_nat s) (Z.of_nat l))
    as (Hs & Hl & E).
  - destruct (Req.skip req); [assumption | now subst].
  - destruct (Req.limit req); [assumption | now subst].
  - rewrite E. unfold Server.entities.
    rewrite (slice_Array_from _ 100 _ _ Hs Hl), !Nat2Z.id. reflexivity.
Qed.

Lemma get_entities_handler_page_witness :
  Server.get_entities_handler
    {| Req.authorization := None; Req.skip := Some "98"; Req.limit := None;
       Req.name := None |} =
    Some (Express.status_json 200
            (Express.JsonEntities
               [ {| Express.id := 98; Express.name := "Entity 98" |};
                 {| Express.id := 99; Express.name := "Entity 99" |} ])).
Proof.
  apply (get_entities_handler_page
           {| Req.authorization := None; Req.skip := Some "98";
              Req.limit := None; Req.name := None |} 98 10);
    reflexivity.
Defined.

(** X3: for all natural numbers [skip] and [limit] written in decimal in
    the query, the handler of [GET /entities] answers 200 with the entities
    of ids [skip] to [skip + limit - 1], cut at id 99. *)
Theorem get_entities_handler_decimal
    (authorization : Js.value) (name : Js.any) (s l : nat) :
  Server.get_entities_handler
    {| Req.authorization := authorization;
       Req.skip := Some (Js.toString s); Req.limit := Some (Js.toString l);
       Req.name := name |} =
    Some (Express.status_json 200
            (Express.JsonEntities
               (map (fun i => {| Express.id := Z.of_nat i;
                                 Express.name := "Entity " ++ Js.toString i |})
                    (seq (Nat.min s 100) (Nat.min l (100 - s)))))).
Proof.
  destruct (get_entities_handler_slice
              {| Req.authorization := authorization;
                 Req.skip := Some (Js.toString s);
                 Req.limit := Some (Js.toString l); Req.name := name |}
              (Z.of_nat s) (Z.of_nat l)) as (Hs & Hl & E);
    try apply Number_toString.
  rewrite E. unfold Server.entities.
  rewrite (slice_Array_from _ 100 _ _ Hs Hl), !Nat2Z.id. reflexivity.
Qed.

(* ------------------------------------------------------------------ *)
(** ** The guard: what reaches the handler *)

Lemma split_segments_no_sep (sep : ascii) (s : string) :
  Forall (fun seg => Js.string_includes seg sep = false) (Js.split sep s).
Proof.
  induction s as [|c r IH]; cbn [Js.split].
  - repeat constructor.
  - destruct (Ascii.eqb c sep) eqn:Hc.
    + constructor; [reflexivity | assumption].
    + destruct (Js.split sep r) as [|seg segs].
      * repeat constructor. cbn. now rewrite Hc.
      * inversion IH as [|? ? Hseg Hsegs]; subst.
        constructor; [cbn; now rewrite Hc | assumption].
Qed.

Lemma split_nonempty (sep : ascii) (s : string) :
  exists seg segs, Js.split sep s = seg :: segs.
Proof.
  destruct s as [|c r]; cbn [Js.split]; [now eauto|].
  destruct (Ascii.eqb c sep); [now eauto|].
  destruct (Js.split sep r); eauto.
Qed.

Lemma split_single_iff (sep : ascii) (s : string) :
  Js.index (Js.split sep s) 1 = None <-> Js.string_includes s sep = false.
Proof.
  split; [|intros H; now rewrite (split_no_sep _ _ H)].
  induction s as [|c r IH]; cbn [Js.split Js.string_includes]; [reflexivity|].
  destruct (split_nonempty sep r) as (seg & segs & E). rewrite E in *.
  destruct (Ascii.eqb c sep); cbn [orb].
  - discriminate.
  - exact IH.
Qed.

(** X4: the token the guard extracts from a header never contains a blank,
    and there is no token to extract exactly when the header has no
    blank. *)
Theorem extracted_token_has_no_blank (authHeader : string) :
  (forall token,
     Js.index (Js.split " " authHeader) 1 = Some token ->
     Js.string_includes token " " = false) /\
  (Js.index (Js.split " " authHeader) 1 = None <->
   Js.string_includes authHeader " " = false).
Proof.
  split; [|apply split_single_iff].
  intros token H.
  pose proof (split_segments_no_sep " " authHeader) as Hall.
  rewrite Forall_forall in Hall. apply Hall.
  unfold Js.index in H. now apply nth_error_In in H.
Qed.

Lemma extracted_token_has_no_blank_witness :
  Js.string_includes "a.b.c" " " = false.
Proof.
  apply (proj1 (extracted_token_has_no_blank "Bearer a.b.c extra") "a.b.c").
  reflexivity.
Defined.

(** X5: the guard calls the downstream handler only for a non-empty header
    whose second segment verifies under the server's secret, with claims
    that include every required permission ([user.permissions.includes]
    finds each of them); the claims it hands on are the verified ones. *)
Theorem guard_next_sound
    (jwt : Jwt.Lib) (env : Js.value) (permissionsRequired : list string)
    (h : Js.value) (now : Z) (user : Js.json)
    (Hnext :
       Server.authenticateJWT jwt env permissionsRequired h now =
         Server.Next user) :
  Js.truthy h = true /\
  Jwt.verify jwt (Js.index (Js.split " " (Js.str h)) 1)
    (Server.SECRET_KEY env) now = Jwt.Ok user /\
  (forall permission, In permission permissionsRequired ->
     Js.includes_any (Js.get user "permissions") permission = Some true).
Proof.
  unfold Server.authenticateJWT in Hnext.
  destruct (Js.truthy h); [|discriminate Hnext].
  destruct (Jwt.verify jwt _ _ now) as [err|u]; [discriminate Hnext|].
  destruct (Js.every_throws _ permissionsRequired) as [[|]|] eqn:Hevery;
    try discriminate Hnext.
  inversion Hnext; subst. repeat split.
  now apply (every_throws_true
               (fun permission =>
                  Js.includes_any (Js.get user "permissions") permission)).
Qed.

Lemma guard_next_sound_witness :
  Js.truthy Ref.andrei_header = true /\
  Jwt.verify Ref.jwt (Js.index (Js.split " " (Js.str Ref.andrei_header)) 1)
    (Server.SECRET_KEY None) 2000 = Jwt.Ok Ref.andrei_decoded /\
  (forall permission, In permission ["WRITE"] ->
     Js.includes_any (Js.get Ref.andrei_decoded "permissions") permission =
       Some true).
Proof.
  apply (guard_next_sound Ref.jwt None ["WRITE"] Ref.andrei_header 2000
           Ref.andrei_decoded).
  vm_compute. reflexivity.
Defined.

(** X6: requiring less never turns an accepted request away: a request
    that passes a guard passes, with the same claims, every guard whose
    required permissions are among those of the first; in particular the
    order and repetition of the required permissions do not matter. *)
Theorem guard_monotone
    (jwt : Jwt.Lib) (env : Js.value) (required required' : list string)
    (h : Js.value) (now : Z) (user : Js.json)
    (Hsub : incl required' required)
    (Hnext : Server.authenticateJWT jwt env required h now = Server.Next user) :
  Server.authenticateJWT jwt env required' h now = Server.Next user.
Proof.
  unfold Server.authenticateJWT in *.
  destruct (Js.truthy h); [|discriminate Hnext].
  destruct (Jwt.verify jwt _ _ now) as [err|u]; [discriminate Hnext|].
  destruct (Js.every_throws _ required) as [[|]|] eqn:Hevery;
    try discriminate Hnext.
  inversion Hnext; subst.
  assert (Hall : forall permission, In permission required ->
            Js.includes_any (Js.get user "permissions") permission = Some true)
    by (now apply (every_throws_true
                     (fun permission =>
                        Js.includes_any (Js.get user "permissions") permission))).
  assert (Hevery' :
    Js.every_throws
      (fun permission => Js.includes_any (Js.get user "permissions") permission)
      required' = Some true)
    by (apply every_throws_true; intros x Hx; apply Hall; auto).
  now rewrite Hevery'.
Qed.

Lemma guard_monotone_witness :
  Ref.authenticateJWT ["READ"; "READ"] Ref.andrei_header 2000 =
    Server.Next Ref.andrei_decoded.
Proof.
  apply (guard_monotone Ref.jwt None ["READ"; "WRITE"] ["READ"; "READ"]
           Ref.andrei_header 2000 Ref.andrei_decoded).
  - intros x [<-|[<-|[]]]; left; reflexivity.
  - vm_compute. reflexivity.
Defined.

(** X7: nothing after the second segment of the header is read: a header
    made of a scheme word, a token and any further text after another blank
    has the outcome of the header made of the scheme word and the token. *)
Theorem guard_ignores_trailing_segments
    (jwt : Jwt.Lib) (env : Js.value) (permissionsRequired : list string)
    (scheme token rest : string) (now : Z)
    (Hscheme : Js.string_includes scheme " " = false)
    (Htoken : Js.string_includes token " " = false) :
  Server.authenticateJWT jwt env permissionsRequired
    (Some (scheme ++ " " ++ token ++ " " ++ rest)) now =
  Server.authenticateJWT jwt env permissionsRequired
    (Some (scheme ++ " " ++ token)) now.
Proof.
  assert (Hlong : Js.truthy (Some (scheme ++ " " ++ token ++ " " ++ rest)) = true)
    by (destruct scheme; reflexivity).
  assert (Hshort : Js.truthy (Some (scheme ++ " " ++ token)) = true)
    by (destruct scheme; reflexivity).
  unfold Server.authenticateJWT. rewrite Hlong, Hshort.
  cbn [Js.str append].
  rewrite (second_segment_token scheme token Hscheme Htoken).
  rewrite (second_segment scheme _ Hscheme).
  now rewrite (split_first_segment " " token rest Htoken).
Qed.

Lemma guard_ignores_trailing_segments_witness :
  Ref.authenticateJWT ["READ"]
    (Some ("Bearer " ++ Ref.vasea_token ++ " and more")) 2000 =
  Ref.authenticateJWT ["READ"] (Some ("Bearer " ++ Ref.vasea_token)) 2000.
Proof.
  apply (guard_ignores_trailing_segments Ref.jwt None ["READ"] "Bearer"
           Ref.vasea_token "and more" 2000).
  - reflexivity.
  - vm_compute. reflexivity.
Defined.

(* ------------------------------------------------------------------ *)
(** ** Login: what a 200 means *)

(** X8: for every parsed body, [POST /login] answers 200, 400, 401 or,
    when [compareSync] throws, the default error handler's 500, and nothing
    else.  A 200 is only ever given for the email of a configured user
    together with a string password that [compareSync] accepts against that
    user's stored hash; the token is then the signature of that user's own
    email, role and permissions, valid for one minute.  The 500 is given
    exactly when the email is that of a configured user and the password
    is truthy but not a string. *)
Theorem post_login_sound
    (jwt : Jwt.Lib) (bcrypt : Bcrypt.Lib) (env : Js.value) (salt0 salt1 : string)
    (body : Req.LoginBody) (now : Z) :
  let res := Server.post_login jwt bcrypt env salt0 salt1 body now in
  (Express.statusCode res = 200 \/ Express.statusCode res = 400 \/
   Express.statusCode res = 401 \/ res = Express.uncaught) /\
  (Express.statusCode res = 200 ->
   exists u candidate,
     In u (Server.users bcrypt salt0 salt1) /\
     Req.email body = Some (Js.Str (User.email u)) /\
     Req.password body = Some (Js.Str candidate) /\
     Bcrypt.compareSync bcrypt candidate (User.password u) = true /\
     res = Express.status_json 200
             (Express.JsonToken
                (Jwt.sign jwt
                   {| Jwt.email := User.email u; Jwt.role := User.role u;
                      Jwt.permissions := User.permissions u |}
                   (Server.SECRET_KEY env) Jwt.expiresIn_1m now))) /\
  (res = Express.uncaught <->
   (exists u, In u (Server.users bcrypt salt0 salt1) /\
              Req.email body = Some (Js.Str (User.email u))) /\
   Js.truthy_any (Req.password body) = true /\
   (forall candidate, Req.password body <> Some (Js.Str candidate))).
Proof.
  cbv zeta. unfold Server.post_login.
  destruct (Js.truthy_any (Req.email body)) eqn:Hemail; cbn [andb].
  2:{ split; [cbn; auto|]. split; [cbn; discriminate|].
      split; [discriminate|].
      intros ((u & Hu & E) & _ & _). rewrite E in Hemail.
      destruct Hu as [<-|[<-|[]]]; discriminate Hemail. }
  destruct (Js.truthy_any (Req.password body)) eqn:Hpassword.
  2:{ split; [cbn; auto|]. split; [cbn; discriminate|].
      split; [discriminate|]. intros (_ & H & _). discriminate H. }
  destruct (Js.find _ (Server.users bcrypt salt0 salt1)) as [u|] eqn:Hfind.
  2:{ split; [cbn; auto|]. split; [cbn; discriminate|].
      split; [discriminate|].
      intros ((u & Hu & E) & _ & _).
      apply (find_none _ _ Hfind) in Hu. rewrite E in Hu.
      cbn in Hu. now rewrite String.eqb_refl in Hu. }
  apply find_some in Hfind as [Hin Heq].
  assert (He : Req.email body = Some (Js.Str (User.email u))).
  { destruct (Req.email body) as [[| | | e | |]|]; try discriminate Heq.
    cbn in Heq. apply String.eqb_eq in Heq. now subst. }
  destruct (Req.password body) as [[| b | n | candidate | elems | props]|];
    cbn [Bcrypt.compareSync_any];
    try (split; [now repeat right|]; split; [cbn; discriminate|];
         split; [intros _|reflexivity];
         split; [now exists u|]; split; [reflexivity | discriminate]).
  destruct (Bcrypt.compareSync bcrypt candidate (User.password u)) eqn:Hc.
  - split; [cbn; auto|]. split.
    + intros _. exists u, candidate. repeat split; assumption.
    + split; [discriminate|]. intros (_ & _ & H). now destruct (H candidate).
  - split; [cbn; auto|]. split; [cbn; discriminate|].
    split; [discriminate|]. intros (_ & _ & H). now destruct (H candidate).
Qed.

Lemma post_login_sound_witness :
  (exists u candidate,
     In u (Server.users Ref.bcrypt "s0" "s1") /\
     Req.email Ref.andrei = Some (Js.Str (User.email u)) /\
     Req.password Ref.andrei = Some (Js.Str candidate) /\
     Bcrypt.compareSync Ref.bcrypt candidate (User.password u) = true /\
     Server.post_login Ref.jwt Ref.bcrypt None "s0" "s1" Ref.andrei 1000 =
       Express.status_json 200
         (Express.JsonToken
            (Jwt.sign Ref.jwt
               {| Jwt.email := User.email u; Jwt.role := User.role u;
                  Jwt.permissions := User.permissions u |}
               (Server.SECRET_KEY None) Jwt.expiresIn_1m 1000))) /\
  Ref.post_login
    {| Req.email := Some (Js.Str "andrei@gmail.com");
       Req.password := Some (Js.Num (inject_Z 12345)) |} 1000 =
    Express.uncaught.
Proof.
  split.
  - apply (post_login_sound Ref.jwt Ref.bcrypt None "s0" "s1" Ref.andrei 1000).
    reflexivity.
  - apply (post_login_sound Ref.jwt Ref.bcrypt None "s0" "s1"
             {| Req.email := Some (Js.Str "andrei@gmail.com");
                Req.password := Some (Js.Num (inject_Z 12345)) |} 1000).
    split; [|split; [reflexivity | discriminate]].
    eexists. split; [left; reflexivity | reflexivity].
Defined.

(* ------------------------------------------------------------------ *)
(** ** The routes behind the guard *)

Lemma guard_rejection_status
    (jwt : Jwt.Lib) (env : Js.value) (permissionsRequired : list string)
    (h : Js.value) (now : Z) (res : Express.Response) :
  Server.authenticateJWT jwt env permissionsRequired h now = Server.Respond res ->
  Express.statusCode res = 401 \/ Express.statusCode res = 403.
Proof.
  unfold Server.authenticateJWT.
  destruct (Js.truthy h).
  - destruct (Jwt.verify jwt _ _ now) as [err|user].
    + intros E. inversion E. now right.
    + destruct (Js.every_throws _ permissionsRequired) as [[|]|]; intros E;
        [discriminate E | inversion E; now right | discriminate E].
  - intros E. inversion E. now left.
Qed.

(** A guard with one required permission calls the handler only when that
    permission is found. *)
Lemma guard_next_single
    (jwt : Jwt.Lib) (env : Js.value) (permission : string)
    (h : Js.value) (now : Z) (user : Js.json) :
  Server.authenticateJWT jwt env [permission] h now = Server.Next user ->
  Js.includes_any (Js.get user "permissions") permission = Some true.
Proof.
  unfold Server.authenticateJWT.
  destruct (Js.truthy h); [|discriminate].
  destruct (Jwt.verify jwt _ _ now) as [err|u]; [discriminate|].
  cbn [Js.every_throws].
  destruct (Js.includes_any (Js.get u "permissions") permission)
    as [[|]|] eqn:E; try discriminate.
  intros H. inversion H; subst. exact E.
Qed.

(** X9: the guard and the handler of [POST /entities], given the parsed
    body: authorization comes before validation.  When the guard answers,
    its 401 or 403 is the answer whatever the body; when it throws, the
    answer is the default error handler's 500; the handler runs only for a
    token in whose claims [includes] finds WRITE, and then answers 201,
    echoing the name (any truthy JSON) with the clock reading as id, or 400
    when the name is absent or falsy.  So a 201 or a 400 is only ever given
    to a caller whose token verified with WRITE. *)
Theorem post_entities_cases
    (jwt : Jwt.Lib) (env : Js.value) (req : Req.Entities) (now : Z) :
  let res := Server.post_entities jwt env req now in
  let guard :=
    Server.authenticateJWT jwt env ["WRITE"] (Req.authorization req) now in
  (forall rejection, guard = Server.Respond rejection ->
     res = rejection /\
     (Express.statusCode res = 401 \/ Express.statusCode res = 403)) /\
  (guard = Server.Throw -> res = Express.uncaught) /\
  (forall user, guard = Server.Next user ->
     Js.includes_any (Js.get user "permissions") "WRITE" = Some true /\
     res = if Js.truthy_any (Req.name req)
           then Express.status_json 201 (Express.JsonEntity now (Req.name req))
           else Express.status_json 400 (Express.JsonMessage "Invalid input")) /\
  (Express.statusCode res = 201 \/ Express.statusCode res = 400 ->
   exists user, guard = Server.Next user).
Proof.
  cbv zeta. unfold Server.post_entities.
  destruct (Server.authenticateJWT jwt env ["WRITE"] (Req.authorization req) now)
    as [rejection|user|] eqn:Hguard.
  - pose proof (guard_rejection_status _ _ _ _ _ _ Hguard) as Hstatus.
    split; [|split; [discriminate|split; [discriminate|]]].
    + intros r Hr. inversion Hr; subst. now split.
    + intros [H|H]; destruct Hstatus as [E|E]; rewrite E in H; discriminate H.
  - split; [discriminate|]. split; [discriminate|]. split.
    + intros u Hu. inversion Hu; subst. split.
      * exact (guard_next_single _ _ _ _ _ _ Hguard).
      * reflexivity.
    + intros _. now exists user.
  - split; [discriminate|]. split; [reflexivity|]. split; [discriminate|].
    intros [H|H]; discriminate H.
Qed.

Lemma post_entities_cases_witness :
  Ref.post_entities
    {| Req.authorization := Ref.andrei_header; Req.skip := None;
       Req.limit := None; Req.name := Some (Js.Arr [Js.Str "foo"]) |} 2000 =
    Express.status_json 201
      (Express.JsonEntity 2000 (Some (Js.Arr [Js.Str "foo"]))) /\
  Ref.post_entities
    {| Req.authorization := Ref.vasea_header; Req.skip := None;
       Req.limit := None; Req.name := None |} 2000 =
    Express.sendStatus 403 /\
  Ref.post_entities
    {| Req.authorization := Some ("Bearer " ++ Ref.no_permissions_token);
       Req.skip := None; Req.limit := None; Req.name := Some (Js.Str "foo") |}
    2000 = Express.uncaught.
Proof.
  split; [|split].
  - destruct (post_entities_cases Ref.jwt None
                {| Req.authorization := Ref.andrei_header; Req.skip := None;
                   Req.limit := None;
                   Req.name := Some (Js.Arr [Js.Str "foo"]) |} 2000)
      as (_ & _ & Hnext & _).
    destruct (Hnext Ref.andrei_decoded) as [_ E]; [vm_compute; reflexivity|].
    exact E.
  - destruct (post_entities_cases Ref.jwt None
                {| Req.authorization := Ref.vasea_header; Req.skip := None;
                   Req.limit := None; Req.name := None |} 2000)
      as (Hrejected & _).
    destruct (Hrejected (Express.sendStatus 403)) as [E _];
      [vm_compute; reflexivity|].
    exact E.
  - destruct (post_entities_cases Ref.jwt None
                {| Req.authorization :=
                     Some ("Bearer " ++ Ref.no_permissions_token);
                   Req.skip := None; Req.limit := None;
                   Req.name := Some (Js.Str "foo") |} 2000)
      as (_ & Hthrow & _).
    apply Hthrow. vm_compute. reflexivity.
Defined.

(** X10: the guard in front of [GET /entities], whatever the query.  When
    the guard answers, its 401 or 403 is the answer; when it throws, the
    answer is the default error handler's 500; the handler runs, and its
    answer is the answer, only for a token in whose claims [includes] finds
    READ. *)
Theorem get_entities_cases
    (jwt : Jwt.Lib) (env : Js.value) (req : Req.Entities) (now : Z) :
  let guard :=
    Server.authenticateJWT jwt env ["READ"] (Req.authorization req) now in
  (forall rejection, guard = Server.Respond rejection ->
     Server.get_entities jwt env req now = Some rejection /\
     (Express.statusCode rejection = 401 \/
      Express.statusCode rejection = 403)) /\
  (guard = Server.Throw ->
   Server.get_entities jwt env req now = Some Express.uncaught) /\
  (forall user, guard = Server.Next user ->
     Js.includes_any (Js.get user "permissions") "READ" = Some true /\
     Server.get_entities jwt env req now = Server.get_entities_handler req).
Proof.
  cbv zeta. unfold Server.get_entities.
  destruct (Server.authenticateJWT jwt env ["READ"] (Req.authorization req) now)
    as [rejection|user|] eqn:Hguard.
  - split; [|split; discriminate].
    intros r Hr. inversion Hr; subst.
    split; [reflexivity | exact (guard_rejection_status _ _ _ _ _ _ Hguard)].
  - split; [discriminate|]. split; [discriminate|].
    intros u Hu. inversion Hu; subst.
    split; [exact (guard_next_single _ _ _ _ _ _ Hguard) | reflexivity].
  - split; [discriminate|]. split; [reflexivity | discriminate].
Qed.

Lemma get_entities_cases_witness :
  Ref.get_entities
    {| Req.authorization := None; Req.skip := Some "-5"; Req.limit := None;
       Req.name := None |} 0 = Some (Express.sendStatus 401) /\
  Ref.get_entities
    {| Req.authorization := Some ("Bearer " ++ Ref.no_permissions_token);
       Req.skip := None; Req.limit := None; Req.name := None |} 2000 =
    Some Express.uncaught /\
  Ref.get_entities
    {| Req.authorization := Ref.vasea_header; Req.skip := None;
       Req.limit := Some "1"; Req.name := None |} 2000 =
    Some (Express.status_json 200
            (Express.JsonEntities
               [ {| Express.id := 0; Express.name := "Entity 0" |} ])).
Proof.
  split; [|split].
  - destruct (get_entities_cases Ref.jwt None
                {| Req.authorization := None; Req.skip := Some "-5";
                   Req.limit := None; Req.name := None |} 0)
      as (Hrejected & _).
    destruct (Hrejected (Express.sendStatus 401)) as [E _]; [reflexivity|].
    exact E.
  - destruct (get_entities_cases Ref.jwt None
                {| Req.authorization :=
                     Some ("Bearer " ++ Ref.no_permissions_token);
                   Req.skip := None; Req.limit := None; Req.name := None |}
                2000)
      as (_ & Hthrow & _).
    apply Hthrow. vm_compute. reflexivity.
  - destruct (get_entities_cases Ref.jwt None
                {| Req.authorization := Ref.vasea_header; Req.skip := None;
                   Req.limit := Some "1"; Req.name := None |} 2000)
      as (_ & _ & Hnext).
    destruct (Hnext Ref.vasea_decoded) as [_ E]; [vm_compute; reflexivity|].
    exact E.
Defined.

(* ------------------------------------------------------------------ *)
(** ** From login to the routes *)

(** The guard on a header that presents a token signed with the server's
    secret for one minute: only the clock and the permissions decide. *)
Lemma guard_signed
    (jwt : Jwt.Lib) (HJ : Jwt.Laws jwt) (env : Js.value)
    (required : list string) (p : Jwt.Payload) (issued now : Z) :
  Server.authenticateJWT jwt env required
    (Some ("Bearer " ++
           Jwt.sign jwt p (Server.SECRET_KEY env) Jwt.expiresIn_1m issued))
    now =
  if Jwt.clockTimestamp issued + Jwt.expiresIn_1m <=? Jwt.clockTimestamp now
  then Server.Respond (Express.sendStatus 403)
  else if Js.every (fun permission => Js.includes (Jwt.permissions p) permission)
            required
       then Server.Next
              (Jwt.decoded p (Jwt.clockTimestamp issued)
                 (Jwt.clockTimestamp issued + Jwt.expiresIn_1m))
       else Server.Respond (Express.sendStatus 403).
Proof.
  assert (Htoken :
    Js.index
      (Js.split " "
         (Js.str (Some ("Bearer " ++
            Jwt.sign jwt p (Server.SECRET_KEY env) Jwt.expiresIn_1m issued))))
      1 = Some (Jwt.sign jwt p (Server.SECRET_KEY env) Jwt.expiresIn_1m issued)).
  { cbn [Js.str].
    change ("Bearer " ++ ?t) with ("Bearer" ++ String " " t).
    apply second_segment_token; [reflexivity | apply (Jwt.sign_no_blank _ HJ)]. }
  destruct (Z.leb_spec (Jwt.clockTimestamp issued + Jwt.expiresIn_1m)
              (Jwt.clockTimestamp now)) as [Hexpired|Hlive].
  - apply guard_err with (err := Jwt.TokenExpired); [reflexivity|].
    rewrite Htoken.
    apply (Jwt.verify_expired _ HJ); [apply SECRET_KEY_not_empty | assumption].
  - rewrite (guard_ok jwt env required now
               (Some ("Bearer " ++
                      Jwt.sign jwt p (Server.SECRET_KEY env) Jwt.expiresIn_1m
                        issued))
               (Jwt.decoded p (Jwt.clockTimestamp issued)
                  (Jwt.clockTimestamp issued + Jwt.expiresIn_1m))
               eq_refl).
    + rewrite decoded_permissions, every_throws_strings.
      now destruct (Js.every _ required).
    + rewrite Htoken.
      apply (Jwt.verify_sign _ HJ); [apply SECRET_KEY_not_empty | assumption].
Qed.

(** X11: from login to the routes.  A configured user who logs in with the
    password 12345 receives a token; presented as a bearer header before
    the clock reaches the expiry second, it opens [GET /entities] for both
    users, and [POST /entities] exactly for the user whose permissions
    include WRITE (403 for the other); from the expiry second on both
    routes answer 403. *)
Theorem login_then_entities
    (jwt : Jwt.Lib) (HJ : Jwt.Laws jwt) (bcrypt : Bcrypt.Lib)
    (HB : Bcrypt.Laws bcrypt) (env : Js.value) (salt0 salt1 : string)
    (u : User.t) (Hu : In u (Server.users bcrypt salt0 salt1))
    (issued now : Z) (skip limit : Js.value) (name : Js.any) :
  exists token,
    Server.post_login jwt bcrypt env salt0 salt1
      {| Req.email := Some (Js.Str (User.email u));
         Req.password := Some (Js.Str "12345") |}
      issued = Express.status_json 200 (Express.JsonToken token) /\
    let req := {| Req.authorization := Some ("Bearer " ++ token);
                  Req.skip := skip; Req.limit := limit; Req.name := name |} in
    (Jwt.clockTimestamp now < Jwt.clockTimestamp issued + 60 ->
     Server.get_entities jwt env req now = Server.get_entities_handler req /\
     Server.post_entities jwt env req now =
       if Js.includes (User.permissions u) "WRITE"
       then Server.post_entities_handler req now
       else Express.sendStatus 403) /\
    (Jwt.clockTimestamp issued + 60 <= Jwt.clockTimestamp now ->
     Server.get_entities jwt env req now = Some (Express.sendStatus 403) /\
     Server.post_entities jwt env req now = Express.sendStatus 403).
Proof.
  eexists. split; [apply (post_login_configured_users jwt bcrypt HB); exact Hu|].
  cbv zeta. unfold Server.get_entities, Server.post_entities.
  cbn [Req.authorization]. rewrite !(guard_signed jwt HJ).
  unfold Jwt.expiresIn_1m.
  destruct (Z.leb_spec (Jwt.clockTimestamp issued + 60) (Jwt.clockTimestamp now)).
  - split; [lia | intros _; split; reflexivity].
  - split; [intros _ | lia].
    destruct Hu as [<-|[<-|[]]]; split; reflexivity.
Qed.

Lemma login_then_entities_witness :
  exists token,
    Ref.post_login Ref.vasea 1000 =
      Express.status_json 200 (Express.JsonToken token) /\
    Ref.get_entities
      {| Req.authorization := Some ("Bearer " ++ token); Req.skip := None;
         Req.limit := Some "2"; Req.name := Some (Js.Str "foo") |} 60999 =
      Some (Express.status_json 200
              (Express.JsonEntities
                 [ {| Express.id := 0; Express.name := "Entity 0" |};
                   {| Express.id := 1; Express.name := "Entity 1" |} ])) /\
    Ref.post_entities
      {| Req.authorization := Some ("Bearer " ++ token); Req.skip := None;
         Req.limit := Some "2"; Req.name := Some (Js.Str "foo") |} 60999 =
      Express.sendStatus 403.
Proof.
  destruct (login_then_entities Ref.jwt ref_jwt_laws Ref.bcrypt ref_bcrypt_laws
              None "s0" "s1"
              {| User.email := "vasea@gmail.com";
                 User.password := Bcrypt.hashSync Ref.bcrypt "12345" 5 "s1";
                 User.role := "READER";
                 User.permissions := ["READ"] |}
              (or_intror (or_introl eq_refl))
              1000 60999 None (Some "2") (Some (Js.Str "foo")))
    as (token & Hlogin & Hlive & _).
  exists token. split; [exact Hlogin|].
  destruct Hlive as [Hget Hpost]; [vm_compute; reflexivity|].
  split; [exact Hget | exact Hpost].
Defined.


